(** * Image classification tool: the session logic of [image_classifier.py]

    A shallow embedding of the non-GUI part of [ImageClassifier]: the image
    list and its cursor, the folder list, the undo stack, and the working
    directory they mirror.  Python values are modelled as follows.

    - [str] is [string]; characters are compared by code, and [lower] acts on
      the ASCII letters (the five suffixes tested by [load_images] are ASCII,
      and no character outside ASCII lowers to text that can be part of
      one of them).
    - [int] is [Z]; a list index follows Python: [-len <= i < 0] counts from
      the end, anything outside [-len <= i < len] raises [IndexError].
    - a list is a [list]; [append] adds at the end, [pop] removes the end.
    - a time stamp ([st_birthtime], [st_ctime]) is only compared, never
      computed with, and is a [Z].
    - a path is the list of its components below the working directory:
      [os.path.join(work_dir, f)] is [[f]] and
      [os.path.join(work_dir, folder, f)] is [[folder; f]]; the names come
      from [os.listdir] and hold no separator.
    - the dialogs and the image label are not part of the state; what an
      operation showed or how it ended is part of its result. *)

From Stdlib Require Import ZArith List String Ascii Bool Lia Permutation.
From Stdlib Require Import DecimalString.
From stdpp Require Import base option list sorting strings.

Local Open Scope string_scope.
Local Open Scope list_scope.
Local Open Scope Z_scope.

#[local] Set Warnings "-register-all".

(** ** Python lists and strings *)

Module Py.

Section Lists.
Context {A : Type}.

(** The position [l[i]] addresses, [None] when [l[i]] raises [IndexError]. *)
Definition norm_index (n : nat) (i : Z) : option nat :=
  if (0 <=? i) && (i <? Z.of_nat n) then Some (Z.to_nat i)
  else if (- Z.of_nat n <=? i) && (i <? 0) then Some (Z.to_nat (Z.of_nat n + i))
  else None.

(** [l[i]] *)
Definition getitem (l : list A) (i : Z) : option A :=
  k ← norm_index (List.length l) i; l !! k.

(** [del l[i]] *)
Definition delitem (l : list A) (i : Z) : option (list A) :=
  k ← norm_index (List.length l) i; Some (delete k l).

(** [l.pop()]: the list without its last element, and that element. *)
Fixpoint pop (l : list A) : option (list A * A) :=
  match l with
  | [] => None
  | x :: l' =>
      match pop l' with
      | None => Some ([], x)
      | Some (r, y) => Some (x :: r, y)
      end
  end.

(** [l.append(x)] *)
Definition append (l : list A) (x : A) : list A := l ++ [x].

(** [l.index(x)]: the first position holding [x]; [None] when [x in l] is
    false. *)
Fixpoint index `{EqDecision A} (x : A) (l : list A) : option nat :=
  match l with
  | [] => None
  | y :: l' => if decide (x = y) then Some O else S <$> index x l'
  end.

(** [l.sort(key=key)]: Python's sort is stable, and a stable sort has one
    possible result, which insertion from the right computes. *)
Section Sort.
Context {K : Type} (key : A → K) (leb : K → K → bool).

Fixpoint insert (x : A) (l : list A) : list A :=
  match l with
  | [] => [x]
  | y :: l' => if leb (key x) (key y) then x :: l else y :: insert x l'
  end.

Fixpoint sort (l : list A) : list A :=
  match l with
  | [] => []
  | x :: l' => insert x (sort l')
  end.

(** The order the sort establishes, and the entries whose keys tie with the
    key of [z]. *)
Definition key_le (x y : A) : Prop := leb (key x) (key y) = true.

Definition ties (z x : A) : bool := leb (key z) (key x) && leb (key x) (key z).
End Sort.
End Lists.

(** [c.lower()] on one character. *)
Definition lower_ascii (c : ascii) : ascii :=
  let n := N_of_ascii c in
  if ((65 <=? n) && (n <=? 90))%N then ascii_of_N (n + 32) else c.

(** [s.lower()] *)
Fixpoint lower (s : string) : string :=
  match s with
  | EmptyString => EmptyString
  | String c s' => String (lower_ascii c) (lower s')
  end.

(** [s.startswith(p)] *)
Fixpoint startswith (s p : string) : bool :=
  match p, s with
  | EmptyString, _ => true
  | String _ _, EmptyString => false
  | String a p', String b s' => if Ascii.eqb a b then startswith s' p' else false
  end.

(** [s.endswith(p)]: some tail of [s] is [p]. *)
Fixpoint endswith (s p : string) : bool :=
  if String.eqb s p then true
  else match s with
       | EmptyString => false
       | String _ s' => endswith s' p
       end.

(** [s.endswith((p1, ..., pn))] *)
Definition endswith_any (s : string) (ps : list string) : bool :=
  existsb (endswith s) ps.

End Py.

(** ** The working directory

    The tree below the working directory, with names compared exactly (a
    case-sensitive file system) and no links. *)

Module FS.

(** What [os.stat] reports of a directory.  [st_birthtime] is [None] on a
    platform whose [stat_result] has no such attribute (reading it raises
    [AttributeError]). *)
Record stat_result := { st_birthtime : option Z; st_ctime : Z }.

Inductive node :=
| File (data : string)
| Dir (st : stat_result) (entries : list (string * node)).

(** The entries of a directory, in the order [os.listdir] reports them. *)
Definition directory := list (string * node).

(** A path below the working directory, one component per element. *)
Definition path := list string.

Definition listdir (d : directory) : list string := map fst d.

Fixpoint assoc (x : string) (d : directory) : option node :=
  match d with
  | [] => None
  | (y, n) :: d' => if String.eqb x y then Some n else assoc x d'
  end.

Fixpoint remove_entry (x : string) (d : directory) : directory :=
  match d with
  | [] => []
  | (y, n) :: d' => if String.eqb x y then d' else (y, n) :: remove_entry x d'
  end.

Fixpoint replace_entry (x : string) (m : node) (d : directory) : directory :=
  match d with
  | [] => []
  | (y, n) :: d' =>
      if String.eqb x y then (y, m) :: d' else (y, n) :: replace_entry x m d'
  end.

(** Give the name [x] the node [m]: in place of the node it had, or as a
    new entry.  A new entry goes to the end of the listing; the order in
    which a file system reports a new name is its own, so the position is a
    choice of this model, and the statements on moves are put in terms of
    [lookup] and of the names listed, not of their order. *)
Definition link_entry (x : string) (m : node) (d : directory) : directory :=
  match assoc x d with
  | Some _ => replace_entry x m d
  | None => d ++ [(x, m)]
  end.

(** The node a path names.  The empty path is the working directory itself,
    which the program never addresses that way. *)
Fixpoint lookup (d : directory) (p : path) : option node :=
  match p with
  | [] => None
  | x :: p' =>
      match p' with
      | [] => assoc x d
      | _ :: _ =>
          match assoc x d with
          | Some (Dir _ d') => lookup d' p'
          | _ => None
          end
      end
  end.

(** [os.path.exists], [os.path.isdir], [os.stat] *)
Definition exists_ (d : directory) (p : path) : bool :=
  match lookup d p with Some _ => true | None => false end.

Definition isdir (d : directory) (p : path) : bool :=
  match lookup d p with Some (Dir _ _) => true | _ => false end.

Definition os_stat (d : directory) (p : path) : option stat_result :=
  match lookup d p with Some (Dir st _) => Some st | _ => None end.

(** [os.path.basename] *)
Definition basename (p : path) : string := List.last p EmptyString.

(** Unlink the node at [p]: the node and the directory without it.  The
    directory that held the node keeps its [stat_result]: the change of its
    [st_ctime] that the file system makes is not modelled (there is no
    clock), so a folder list scanned after a move is ordered by the time
    stamps from before the move. *)
Fixpoint detach (d : directory) (p : path) : option (node * directory) :=
  match p with
  | [] => None
  | x :: p' =>
      match assoc x d with
      | None => None
      | Some n =>
          match p' with
          | [] => Some (n, remove_entry x d)
          | _ :: _ =>
              match n with
              | Dir st d' =>
                  match detach d' p' with
                  | Some (m, d'') => Some (m, replace_entry x (Dir st d'') d)
                  | None => None
                  end
              | File _ => None
              end
          end
      end
  end.

(** Link [n] at [p], in place of what [p] named if it named something.  The
    parent of [p] has to be a directory; like [detach], it leaves the
    [stat_result] of that directory as it was. *)
Fixpoint attach (d : directory) (p : path) (n : node) : option directory :=
  match p with
  | [] => None
  | x :: p' =>
      match p' with
      | [] => Some (link_entry x n d)
      | _ :: _ =>
          match assoc x d with
          | Some (Dir st d') =>
              match attach d' p' n with
              | Some d'' => Some (replace_entry x (Dir st d'') d)
              | None => None
              end
          | _ => None
          end
      end
  end.

Definition path_eqb (p q : path) : bool := bool_decide (p = q).

Fixpoint is_prefix (p q : path) : bool :=
  match p, q with
  | [], _ => true
  | _ :: _, [] => false
  | x :: p', y :: q' => if String.eqb x y then is_prefix p' q' else false
  end.

(** [os.rename(src, dst)], [None] when it raises [OSError]: [src] is
    missing, [dst] lies inside [src], the parent of [dst] is not a directory,
    [dst] is a non-empty directory, or one of the two is a directory and the
    other is not.  A file replaces a file, a directory replaces an empty
    directory. *)
Definition os_rename (d : directory) (src dst : path) : option directory :=
  match lookup d src with
  | None => None
  | Some n =>
      if path_eqb src dst then Some d
      else if is_prefix src dst then None
      else
        let relink := '(m, d1) ← detach d src; attach d1 dst m in
        match lookup d dst, n with
        | None, _ => relink
        | Some (File _), File _ => relink
        | Some (Dir _ []), Dir _ _ => relink
        | _, _ => None
        end
  end.

(** [shutil.move(src, dst)], [None] when it raises.  An existing directory
    as [dst] receives [src] inside it, under the base name of [src], and that
    name must be free there.  Everything lies on one device, where the
    copy-and-delete that [shutil.move] falls back on after a failed
    [os.rename] fails as well; a failed move leaves the directory as it
    was. *)
Definition shutil_move (d : directory) (src dst : path) : option directory :=
  if isdir d dst then
    if path_eqb src dst then os_rename d src dst
    else
      let real_dst := dst ++ [basename src] in
      if exists_ d real_dst then None else os_rename d src real_dst
  else os_rename d src dst.

End FS.

(** ** The classifier session *)

Module Classifier.
Import FS.

(** The fields of [ImageClassifier] the operations read and write.  The top
    of [undo_stack] is its last element; a record is
    [(path after the move, path before the move)]. *)
Record session := {
  image_files : list string;
  current_index : Z;
  folders : list string;
  undo_stack : list (path * path)
}.

Definition set_image_files (l : list string) (s : session) : session :=
  {| image_files := l; current_index := current_index s;
     folders := folders s; undo_stack := undo_stack s |}.

Definition set_current_index (i : Z) (s : session) : session :=
  {| image_files := image_files s; current_index := i;
     folders := folders s; undo_stack := undo_stack s |}.

Definition set_folders (l : list string) (s : session) : session :=
  {| image_files := image_files s; current_index := current_index s;
     folders := l; undo_stack := undo_stack s |}.

Definition set_undo_stack (u : list (path * path)) (s : session) : session :=
  {| image_files := image_files s; current_index := current_index s;
     folders := folders s; undo_stack := u |}.

(** What the image label shows after a refresh. *)
Inductive view :=
| NoImagesFound
| AllClassified
| Showing (f : string).

(** What the display did during a navigation step: nothing, a refresh, or
    an [IndexError] leaving the callback. *)
Inductive display :=
| Kept
| Refreshed (v : view)
| Crashed.

(** The way an operation ends.  The program has no error classes of its
    own: each constructor names one exit of [move_image_to_folder] or
    [undo_move].
    - [NoImagesError]: the [return] under [if not self.image_files];
    - [InvalidFolderError]: the [return] under
      [if folder_index >= len(self.folders)];
    - [IndexError]: a list subscript raised outside any [try];
    - [Cancelled], [Skipped]: the two [return]s after the prompt;
    - [FileSystemError]: the [except Exception] branch (an error box);
    - [NothingToUndoError]: the [return] under [if not self.undo_stack];
    - [Moved], [Undone]: the end of the [try] block. *)
Inductive outcome :=
| NoImagesError
| InvalidFolderError
| IndexError
| Cancelled
| Skipped (v : view)
| FileSystemError
| NothingToUndoError
| Moved (v : view)
| Undone (v : view).

(** The answers of [messagebox.askyesnocancel]. *)
Definition Overwrite : option bool := Some true.
Definition Skip : option bool := Some false.
Definition Cancel : option bool := None.

Definition len {A} (l : list A) : Z := Z.of_nat (List.length l).

Definition image_suffixes : list string :=
  [".png"; ".jpg"; ".jpeg"; ".gif"; ".bmp"].

(** [f.lower().endswith(('.png', '.jpg', '.jpeg', '.gif', '.bmp'))] *)
Definition is_image (f : string) : bool :=
  Py.endswith_any (Py.lower f) image_suffixes.

(** [load_images] *)
Definition load_images (s : session) (d : directory) : session :=
  let found := List.filter is_image (listdir d) in
  set_current_index 0 (set_image_files (Py.sort id String.leb found) s).

(** The [try]/[except AttributeError] around [st_birthtime]. *)
Definition create_time (st : stat_result) : Z :=
  match st_birthtime st with
  | Some t => t
  | None => st_ctime st
  end.

(** The list [folder_with_time] built by the loop of [load_folders]. *)
Definition folder_with_time (d : directory) : list (string * Z) :=
  omap (fun f =>
          let full_path := [f] in
          if isdir d full_path && negb (Py.startswith f ".")
          then st ← os_stat d full_path; Some (f, create_time st)
          else None)
       (listdir d).

(** [load_folders] *)
Definition load_folders (s : session) (d : directory) : session :=
  set_folders (map fst (Py.sort snd Z.leb (folder_with_time d))) s.

(** [show_current_image]; [None] when [self.image_files[self.current_index]]
    raises [IndexError]. *)
Definition show_current_image (s : session) : option view :=
  match image_files s with
  | [] => Some NoImagesFound
  | _ :: _ => Showing <$> Py.getitem (image_files s) (current_index s)
  end.

Definition refresh (s : session) : session * display :=
  (s, match show_current_image s with
      | Some v => Refreshed v
      | None => Crashed
      end).

(** [prev_image] *)
Definition prev_image (s : session) : session * display :=
  match image_files s with
  | _ :: _ =>
      if 0 <? current_index s
      then refresh (set_current_index (current_index s - 1) s)
      else (s, Kept)
  | [] => (s, Kept)
  end.

(** [next_image] *)
Definition next_image (s : session) : session * display :=
  match image_files s with
  | _ :: _ =>
      if current_index s <? len (image_files s) - 1
      then refresh (set_current_index (current_index s + 1) s)
      else (s, Kept)
  | [] => (s, Kept)
  end.

(** [go_to_next_or_finish] *)
Definition go_to_next_or_finish (s : session) : option view :=
  match image_files s with
  | [] => Some AllClassified
  | _ :: _ => show_current_image s
  end.

(** The [try] block of [move_image_to_folder]. *)
Definition try_move (s : session) (d : directory) (src_path dst_path : path)
  : outcome * session * directory :=
  match shutil_move d src_path dst_path with
  | None => (FileSystemError, s, d)
  | Some d' =>
      let s1 := set_undo_stack (Py.append (undo_stack s) (dst_path, src_path)) s in
      match Py.delitem (image_files s1) (current_index s1) with
      | None => (FileSystemError, s1, d')
      | Some rest =>
          let s2 := set_image_files rest s1 in
          let s3 := if len (image_files s2) <=? current_index s2
                    then set_current_index (len (image_files s2) - 1) s2
                    else s2 in
          match go_to_next_or_finish s3 with
          | Some v => (Moved v, s3, d')
          | None => (FileSystemError, s3, d')
          end
      end
  end.

(** [move_image_to_folder]; [answer] is what the prompt returns if it is
    shown. *)
Definition move_image_to_folder (s : session) (d : directory)
    (folder_index : Z) (answer : option bool) : outcome * session * directory :=
  match image_files s with
  | [] => (NoImagesError, s, d)
  | _ :: _ =>
      if len (folders s) <=? folder_index then (InvalidFolderError, s, d)
      else
        match Py.getitem (image_files s) (current_index s) with
        | None => (IndexError, s, d)
        | Some src_file =>
            let src_path := [src_file] in
            match Py.getitem (folders s) folder_index with
            | None => (IndexError, s, d)
            | Some target_folder =>
                let dst_path := [target_folder; src_file] in
                if exists_ d dst_path then
                  match answer with
                  | None => (Cancelled, s, d)
                  | Some false =>
                      match go_to_next_or_finish s with
                      | Some v => (Skipped v, s, d)
                      | None => (IndexError, s, d)
                      end
                  | Some true => try_move s d src_path dst_path
                  end
                else try_move s d src_path dst_path
            end
        end
  end.

(** [undo_move] *)
Definition undo_move (s : session) (d : directory)
  : outcome * session * directory :=
  match Py.pop (undo_stack s) with
  | None => (NothingToUndoError, s, d)
  | Some (rest, (current_path, original_path)) =>
      let s0 := set_undo_stack rest s in
      match shutil_move d current_path original_path with
      | None => (FileSystemError, s0, d)
      | Some d' =>
          let old_index := current_index s0 in
          let s1 := load_images s0 d' in
          let restored_file := basename original_path in
          let s2 :=
            match Py.index restored_file (image_files s1) with
            | Some k => set_current_index (Z.of_nat k) s1
            | None =>
                set_current_index (Z.min old_index (len (image_files s1) - 1)) s1
            end in
          match show_current_image s2 with
          | Some v => (Undone v, s2, d')
          | None => (FileSystemError, s2, d')
          end
      end
  end.

(** The session [try_move] leaves when its [try] block runs to the end, [rest]
    being the image list without the entry at the cursor. *)
Definition after_move (s : session) (src_path dst_path : path) (rest : list string)
  : session :=
  {| image_files := rest;
     current_index := if len rest <=? current_index s
                      then len rest - 1 else current_index s;
     folders := folders s;
     undo_stack := undo_stack s ++ [(dst_path, src_path)] |}.

(** *** The words of the specification

    Definitions that follow the specification rather than the code, for
    comparison with [is_image], [load_images] and [folder_with_time]. *)

(** The text after the last ["."] of a name, if the name has one. *)
Fixpoint extension (f : string) : option string :=
  match f with
  | EmptyString => None
  | String c f' =>
      match extension f' with
      | Some e => Some e
      | None => if Ascii.eqb c "." then Some f' else None
      end
  end.

Definition allow_list : list string := ["png"; "jpg"; "jpeg"; "gif"; "bmp"].

(** Lower case as the specification means it, written out with the two
    alphabets: a capital letter stands for the small letter at its place,
    every other character for itself.  It is compared with [Py.lower] in
    [lowercase_lower]. *)
Definition capitals : string := "ABCDEFGHIJKLMNOPQRSTUVWXYZ".
Definition smalls : string := "abcdefghijklmnopqrstuvwxyz".

Fixpoint letter_at (from to : string) (c : ascii) : ascii :=
  match from, to with
  | String a from', String b to' =>
      if Ascii.eqb c a then b else letter_at from' to' c
  | _, _ => c
  end.

Definition lowercase_letter (c : ascii) : ascii := letter_at capitals smalls c.

Fixpoint lowercase (w : string) : string :=
  match w with
  | EmptyString => EmptyString
  | String c w' => String (lowercase_letter c) (lowercase w')
  end.

(** "whose lowercase extension is in the allow-list" *)
Definition lowercase_extension_allowed (f : string) : bool :=
  match extension f with
  | Some e => bool_decide (lowercase e ∈ allow_list)
  | None => false
  end.

(** "the non-hidden direct sub-directories", each with its creation time,
    or its last-metadata-change time where the platform has no creation
    time. *)
Definition visible_subdirectories (d : directory) : list (string * Z) :=
  omap (fun e : string * node =>
          match e.2 with
          | Dir st _ =>
              if Py.startswith e.1 "." then None
              else Some (e.1, match st_birthtime st with
                              | Some born => born
                              | None => st_ctime st
                              end)
          | File _ => None
          end) d.

(** Ascending order of names and of time stamps. *)
Definition name_le (a b : string) : Prop := String.leb a b = true.
Definition time_le (a b : string * Z) : Prop := a.2 <= b.2.

(** The working directory lists no name twice. *)
Definition well_formed (d : directory) : Prop := NoDup (listdir d).

(** The two cached lists are what a rescan of [d] would give. *)
Definition in_sync (s : session) (d : directory) : Prop :=
  image_files s = image_files (load_images s d) ∧
  folders s = folders (load_folders s d).

(** *** Sample directories

    [sample_dir] is the scenario of the specification: [a.png], [b.jpg],
    [c.txt] and the folders [cats] (older) and [dogs]. *)

Definition sample_dir : directory :=
  [ ("dogs", Dir {| st_birthtime := Some 20; st_ctime := 25 |} []);
    ("c.txt", File "text");
    ("b.jpg", File "bbb");
    ("cats", Dir {| st_birthtime := Some 10; st_ctime := 30 |} []);
    ("a.png", File "aaa") ].

Definition empty_session : session :=
  {| image_files := []; current_index := 0; folders := []; undo_stack := [] |}.

Definition scan (d : directory) : session :=
  load_folders (load_images empty_session d) d.

Definition sample_session : session := scan sample_dir.

(** [cats] already holds a file [a.png]. *)
Definition collision_dir : directory :=
  [ ("a.png", File "new");
    ("b.jpg", File "bbb");
    ("cats", Dir {| st_birthtime := None; st_ctime := 10 |}
                 [("a.png", File "old")]) ].

(** [cats/a.png] is a directory, still empty. *)
Definition nested_dir : directory :=
  [ ("a.png", File "aaa");
    ("b.jpg", File "bbb");
    ("cats", Dir {| st_birthtime := None; st_ctime := 10 |}
                 [("a.png", Dir {| st_birthtime := None; st_ctime := 11 |} [])]) ].

(** [cats/a.png] is a directory that holds an [a.png] of its own. *)
Definition blocked_dir : directory :=
  [ ("a.png", File "aaa");
    ("cats", Dir {| st_birthtime := None; st_ctime := 10 |}
                 [("a.png", Dir {| st_birthtime := None; st_ctime := 11 |}
                                [("a.png", File "zzz")])]) ].

(** A sub-directory named like an image, next to an image. *)
Definition album_dir : directory :=
  [ ("pics.png", Dir {| st_birthtime := None; st_ctime := 5 |}
                     [("x.jpg", File "xxx")]);
    ("a.PNG", File "aaa");
    ("notes.txt", File "text") ].

(** One image and one folder. *)
Definition single_dir : directory :=
  [ ("only.gif", File "g");
    ("misc", Dir {| st_birthtime := Some 1; st_ctime := 2 |} []) ].

(** Sub-directories and files of every kind the two scans tell apart. *)
Definition mixed_dir : directory :=
  [ ("z.BMP", File "1");
    (".git", Dir {| st_birthtime := None; st_ctime := 1 |} []);
    ("notes.txt", File "2");
    ("new", Dir {| st_birthtime := None; st_ctime := 9 |} []);
    ("B.JPeG", File "3");
    ("old", Dir {| st_birthtime := None; st_ctime := 4 |} []);
    ("png", File "4");
    ("a.png", File "5") ].

End Classifier.

(** ** The shell around the session

    The handlers of the window that call the operations above, the folder
    list as the list box shows it, and the dispatch of keys and buttons. *)

Module Shell.
Import FS Classifier.

(** A name that is one path component: not empty, free of separators, and
    neither [.] nor [..].  [create_folder] is modelled for such names (and
    for the empty name, which it rejects before any path is built). *)
Fixpoint has_separator (name : string) : bool :=
  match name with
  | EmptyString => false
  | String c name' => Ascii.eqb c "/" || has_separator name'
  end.

Definition one_component (name : string) : bool :=
  negb (String.eqb name EmptyString) && negb (has_separator name)
  && negb (String.eqb name ".") && negb (String.eqb name "..").

(** [os.makedirs(os.path.join(work_dir, name))].  [made] is what the
    platform gives the new directory as [os.stat] data, [None] when the call
    raises for a reason of its own (a name it refuses, no permission); an
    existing path makes it raise too.  The new directory is one entry of
    the working directory, which is what the call does for a name with
    [one_component name = true]; a name with separators, for which the call
    makes a chain of directories, is outside this definition, and the
    statements on [create_folder] assume one component. *)
Definition os_makedirs (d : directory) (name : string) (made : option stat_result)
  : option directory :=
  if exists_ d [name] then None
  else st ← made; Some (d ++ [(name, Dir st [])]).

(** The ways [create_folder] ends: the two warnings, the error box of the
    [except] branch, and the end of the [try] block. *)
Inductive create_outcome :=
| NameMissing
| AlreadyExists
| CreateFailed
| Created.

(** [create_folder]; [folder_name] is the text of the entry after
    [strip()]. *)
Definition create_folder (s : session) (d : directory) (folder_name : string)
    (made : option stat_result) : create_outcome * session * directory :=
  match folder_name with
  | EmptyString => (NameMissing, s, d)
  | String _ _ =>
      let folder_path := [folder_name] in
      if exists_ d folder_path then (AlreadyExists, s, d)
      else
        match os_makedirs d folder_name made with
        | Some d' => (Created, load_folders s d', d')
        | None => (CreateFailed, s, d)
        end
  end.

(** [str(n)] for a natural number. *)
Definition str (n : nat) : string := NilEmpty.string_of_uint (Nat.to_uint n).

(** The line [update_folder_listbox] inserts for [folders[i]]. *)
Definition display_text (i : nat) (folder : string) : string :=
  if (i <? 9)%nat then "[" ++ str (i + 1) ++ "] " ++ folder
  else "    " ++ folder.

(** [update_folder_listbox]: the lines of the list box, top to bottom. *)
Definition update_folder_listbox (s : session) : list string :=
  imap display_text (folders s).

(** What a handler did: nothing, a warning box, or an operation with its
    outcome. *)
Inductive handled :=
| Ignored
| Warned
| Ran (o : outcome).

(** [quick_move] *)
Definition quick_move (s : session) (d : directory) (number : Z)
    (answer : option bool) : handled * session * directory :=
  let folder_index := number - 1 in
  if folder_index <? len (folders s) then
    let '(o, s', d') := move_image_to_folder s d folder_index answer in
    (Ran o, s', d')
  else (Ignored, s, d).

(** [move_to_selected]; [selection] is [folder_listbox.curselection()]. *)
Definition move_to_selected (s : session) (d : directory) (selection : list Z)
    (answer : option bool) : handled * session * directory :=
  match selection with
  | [] => (Warned, s, d)
  | folder_index :: _ =>
      let '(o, s', d') := move_image_to_folder s d folder_index answer in
      (Ran o, s', d')
  end.

(** [__init__]: the fields after the two scans, and what the first
    [show_current_image] shows. *)
Definition init (d : directory) : session * option view :=
  let s := load_folders (load_images empty_session d) d in
  (s, show_current_image s).

(** *** Keys and buttons *)

Inductive key :=
| Up
| Down
| KP (i : nat)
| Control_z
| Command_z.



Inductive command :=
| call_prev_image
| call_next_image
| call_quick_move (number : Z)
| call_undo_move
| call_create_folder
| call_move_to_selected.

(** [bind_keys]: the handler of a key on the window, if it has one. *)
Definition bind_keys (k : key) : option command :=
  match k with
  | Up => Some call_prev_image
  | Down => Some call_next_image
  | KP i =>
      if (1 <=? i)%nat && (i <? 10)%nat
      then Some (call_quick_move (Z.of_nat i))
      else None
  | Control_z | Command_z => Some call_undo_move
  end.





Definition world : Type := session * directory.





(** *** What the operations keep *)

(** The cursor is a position of the image list, if there is one. *)
Definition cursor_ok (s : session) : Prop :=
  image_files s = [] ∨ 0 <= current_index s < len (image_files s).

(** An undo record as [move_image_to_folder] pushes it: from a folder of
    the working directory back to the working directory, under an image
    name. *)
Definition record_ok (r : path * path) : bool :=
  match r with
  | ([_; f], [g]) => String.eqb f g && is_image f
  | _ => false
  end.

Definition records_ok (s : session) : Prop :=
  Forall (fun r => record_ok r = true) (undo_stack s).

(** The image list is what [load_images] would find. *)
Definition images_in_step (s : session) (d : directory) : Prop :=
  image_files s = image_files (load_images s d).

Definition invariant (w : world) : Prop :=
  well_formed w.2 ∧ images_in_step w.1 w.2 ∧ cursor_ok w.1 ∧ records_ok w.1.





End Shell.

(** * Properties *)

Import FS Classifier.

(** Boolean comparisons of integers, as propositions. *)
Ltac zbool :=
  repeat match goal with
    | H : (_ <=? _) = true |- _ => apply Z.leb_le in H
    | H : (_ <=? _) = false |- _ => apply Z.leb_gt in H
    | H : (_ <? _) = true |- _ => apply Z.ltb_lt in H
    | H : (_ <? _) = false |- _ => apply Z.ltb_ge in H
    end.

(** ** Python lists *)

Section PyListFacts.
Context {A : Type}.
Implicit Types (l : list A) (i : Z) (k : nat).

Lemma norm_index_nonneg n i :
  0 <= i < Z.of_nat n → Py.norm_index n i = Some (Z.to_nat i).
Proof.
  intros H. unfold Py.norm_index.
  replace (0 <=? i) with true by (symmetry; apply Z.leb_le; lia).
  replace (i <? Z.of_nat n) with true by (symmetry; apply Z.ltb_lt; lia).
  reflexivity.
Qed.

Lemma norm_index_negative n i :
  - Z.of_nat n <= i < 0 →
  Py.norm_index n i = Some (Z.to_nat (Z.of_nat n + i)).
Proof.
  intros H. unfold Py.norm_index.
  replace (0 <=? i) with false by (symmetry; apply Z.leb_gt; lia).
  replace (- Z.of_nat n <=? i) with true by (symmetry; apply Z.leb_le; lia).
  replace (i <? 0) with true by (symmetry; apply Z.ltb_lt; lia).
  reflexivity.
Qed.

Lemma norm_index_Some n i k :
  Py.norm_index n i = Some k →
  (k < n)%nat ∧ - Z.of_nat n <= i < Z.of_nat n ∧
  (0 <= i → k = Z.to_nat i) ∧ (i < 0 → k = Z.to_nat (Z.of_nat n + i)).
Proof.
  unfold Py.norm_index.
  destruct (0 <=? i) eqn:E1; destruct (i <? Z.of_nat n) eqn:E2; simpl;
    destruct (- Z.of_nat n <=? i) eqn:E3; destruct (i <? 0) eqn:E4; simpl;
    intros [= <-];
    repeat match goal with
      | H : (_ <=? _) = true |- _ => apply Z.leb_le in H
      | H : (_ <=? _) = false |- _ => apply Z.leb_gt in H
      | H : (_ <? _) = true |- _ => apply Z.ltb_lt in H
      | H : (_ <? _) = false |- _ => apply Z.ltb_ge in H
      end; repeat split; try lia.
Qed.

Lemma getitem_Some l i x :
  Py.getitem l i = Some x →
  ∃ k, Py.norm_index (List.length l) i = Some k ∧ l !! k = Some x.
Proof.
  unfold Py.getitem. destruct (Py.norm_index _ i) as [k|]; simpl; [|done].
  intros H. by exists k.
Qed.

Lemma getitem_nonneg l i :
  0 <= i < len l → Py.getitem l i = l !! Z.to_nat i.
Proof.
  intros H. unfold Py.getitem. by rewrite norm_index_nonneg.
Qed.

Lemma getitem_negative l i :
  - len l <= i < 0 → Py.getitem l i = Py.getitem l (len l + i).
Proof.
  intros H. unfold Py.getitem, len in *.
  rewrite norm_index_negative by done.
  rewrite norm_index_nonneg by lia. done.
Qed.

Lemma getitem_bounds l i x :
  Py.getitem l i = Some x → - len l <= i < len l.
Proof.
  intros (k & Hk & _)%getitem_Some.
  apply norm_index_Some in Hk. unfold len. tauto.
Qed.

Lemma delitem_of_getitem l i x :
  Py.getitem l i = Some x →
  ∃ k, Py.norm_index (List.length l) i = Some k ∧
       Py.delitem l i = Some (delete k l) ∧
       len (delete k l) = len l - 1.
Proof.
  intros (k & Hk & Hx)%getitem_Some. exists k. split; [done|].
  unfold Py.delitem. rewrite Hk. split; [done|].
  unfold len. rewrite length_delete by eauto.
  apply lookup_lt_Some in Hx. lia.
Qed.


Lemma pop_append l x : Py.pop (Py.append l x) = Some (l, x).
Proof.
  unfold Py.append. induction l as [|y l IH]; simpl; [done|].
  by rewrite IH.
Qed.



Lemma index_NoDup `{EqDecision A} (x : A) l k :
  NoDup l → l !! k = Some x → Py.index x l = Some k.
Proof.
  intros Hnd. revert k. induction Hnd as [|y l Hy Hnd IH]; intros k; [done|].
  destruct k as [|k]; simpl.
  - intros [= ->]. by rewrite decide_True.
  - intros Hk. rewrite decide_False.
    + by rewrite (IH k Hk).
    + intros ->. apply Hy. by eapply list_elem_of_lookup_2.
Qed.
End PyListFacts.

(** ** Navigation *)

Lemma len_cons {A} (x : A) l : len (x :: l) = len l + 1.
Proof. unfold len. simpl. lia. Qed.

Lemma len_nonneg {A} (l : list A) : 0 <= len l.
Proof. unfold len. lia. Qed.

Lemma show_in_range s :
  0 <= current_index s < len (image_files s) →
  ∃ f, Py.getitem (image_files s) (current_index s) = Some f ∧
       show_current_image s = Some (Showing f).
Proof.
  intros H. unfold show_current_image.
  destruct (lookup_lt_is_Some_2 (image_files s) (Z.to_nat (current_index s)))
    as [f Hf]; [unfold len in H; lia|].
  exists f. rewrite getitem_nonneg by done. split; [done|].
  destruct (image_files s); [done|]. by rewrite Hf.
Qed.

(** C9. With the cursor inside [[0, length-1]], [next_image] and
    [prev_image] leave it there and leave the image list alone: the cursor
    moves by one, except at the last (first) image, where nothing happens and
    no error is raised.  With an empty image list both do nothing. *)
Theorem advance_retreat_stay_in_range (s : session) :
  (image_files s = [] → next_image s = (s, Kept) ∧ prev_image s = (s, Kept)) ∧
  (0 <= current_index s <= len (image_files s) - 1 →
   let a := (next_image s).1 in
   let r := (prev_image s).1 in
   0 <= current_index a <= len (image_files a) - 1 ∧
   0 <= current_index r <= len (image_files r) - 1 ∧
   image_files a = image_files s ∧ image_files r = image_files s ∧
   current_index a = Z.min (current_index s + 1) (len (image_files s) - 1) ∧
   current_index r = Z.max (current_index s - 1) 0 ∧
   (next_image s).2 ≠ Crashed ∧ (prev_image s).2 ≠ Crashed ∧
   (current_index s = len (image_files s) - 1 → next_image s = (s, Kept)) ∧
   (current_index s = 0 → prev_image s = (s, Kept))).
Proof.
  split.
  - intros E. unfold next_image, prev_image. by rewrite E.
  - intros H. unfold next_image, prev_image.
    destruct (image_files s) as [|f0 fs] eqn:E;
      [unfold len in H; simpl in H; lia|].
    destruct (current_index s <? len (f0 :: fs) - 1) eqn:En;
      destruct (0 <? current_index s) eqn:Ep; zbool; simpl;
      repeat match goal with
        | |- context [show_current_image ?t] =>
            let f := fresh "f" in
            let Hs := fresh "Hs" in
            destruct (show_in_range t) as (f & _ & Hs);
            [simpl; rewrite E; lia|]; rewrite Hs
        end;
      simpl; rewrite ?E; repeat split; try done; try lia.
Qed.

Lemma advance_retreat_stay_in_range_witness :
  0 <= current_index sample_session <= len (image_files sample_session) - 1 ∧
  current_index (next_image sample_session).1 = 1 ∧
  current_index (prev_image sample_session).1 = 0 ∧
  next_image (next_image sample_session).1
  = ((next_image sample_session).1, Kept) ∧
  next_image empty_session = (empty_session, Kept).
Proof.
  assert (H : 0 <= current_index sample_session
              <= len (image_files sample_session) - 1) by (vm_compute; split; discriminate).
  split; [exact H|].
  pose proof (proj2 (advance_retreat_stay_in_range sample_session) H) as Hs.
  pose proof (proj1 (advance_retreat_stay_in_range empty_session) eq_refl) as He.
  simpl in Hs. destruct Hs as (_ & _ & _ & _ & Ha & Hr & _).
  split; [exact Ha|]. split; [exact Hr|].
  split; [reflexivity|]. exact (proj1 He).
Defined.

(** ** Moving the current image *)

Lemma getitem_nil {A} (i : Z) : Py.getitem (@nil A) i = None.
Proof.
  unfold Py.getitem. simpl.
  destruct (Py.norm_index 0 i) as [k|] eqn:E; [|done].
  apply norm_index_Some in E. lia.
Qed.

(** Past the two guards and the prompt, the move is the [try] block. *)
Lemma move_reaches_try s d i answer src target :
  Py.getitem (image_files s) (current_index s) = Some src →
  Py.getitem (folders s) i = Some target →
  (exists_ d [target; src] = true → answer = Overwrite) →
  move_image_to_folder s d i answer = try_move s d [src] [target; src].
Proof.
  intros Hsrc Htgt Hans. unfold move_image_to_folder.
  destruct (image_files s) as [|f0 fs] eqn:E; [by rewrite getitem_nil in Hsrc|].
  pose proof (getitem_bounds _ _ _ Htgt) as Hb.
  replace (len (folders s) <=? i) with false by (symmetry; apply Z.leb_gt; lia).
  rewrite Hsrc, Htgt.
  destruct (exists_ d [target; src]); [|done].
  by rewrite Hans.
Qed.

Lemma try_move_ok s d src_path dst_path d' src :
  shutil_move d src_path dst_path = Some d' →
  Py.getitem (image_files s) (current_index s) = Some src →
  ∃ k, Py.norm_index (List.length (image_files s)) (current_index s) = Some k ∧
       let s' := after_move s src_path dst_path (delete k (image_files s)) in
       try_move s d src_path dst_path
       = (match go_to_next_or_finish s' with
          | Some v => Moved v
          | None => FileSystemError
          end, s', d').
Proof.
  intros Hmv Hsrc. destruct (delitem_of_getitem _ _ _ Hsrc) as (k & Hk & Hdel & _).
  exists k. split; [done|]. unfold try_move. rewrite Hmv. simpl. rewrite Hdel.
  simpl. unfold after_move.
  destruct (len (delete k (image_files s)) <=? current_index s); simpl;
    by destruct (go_to_next_or_finish _).
Qed.

(** C3. When [shutil.move] raises inside [move_image_to_folder], the
    operation ends in the [except] branch and the image list, the cursor, the
    folder list and the undo stack are what they were; the directory is
    unchanged too. *)
Theorem move_failure_leaves_state (s : session) (d : directory) (i : Z)
    (answer : option bool) (src target : string) :
  Py.getitem (image_files s) (current_index s) = Some src →
  Py.getitem (folders s) i = Some target →
  (exists_ d [target; src] = true → answer = Overwrite) →
  shutil_move d [src] [target; src] = None →
  move_image_to_folder s d i answer = (FileSystemError, s, d).
Proof.
  intros Hsrc Htgt Hans Hmv.
  rewrite (move_reaches_try _ _ _ _ _ _ Hsrc Htgt Hans).
  unfold try_move. by rewrite Hmv.
Qed.

Lemma move_failure_leaves_state_witness :
  shutil_move blocked_dir ["a.png"] ["cats"; "a.png"] = None ∧
  move_image_to_folder (scan blocked_dir) blocked_dir 0 Overwrite
  = (FileSystemError, scan blocked_dir, blocked_dir).
Proof.
  split; [reflexivity|].
  apply (move_failure_leaves_state (scan blocked_dir) blocked_dir 0 Overwrite
           "a.png" "cats"); [reflexivity | reflexivity | reflexivity | reflexivity].
Defined.

(** C4, as the code has it.  [move_image_to_folder] returns at its first
    guard when the image list is empty, and at its second guard when the
    image list is not empty and [folder_index >= len(folders)]; either way
    the session and the directory are unchanged. *)
Theorem move_guards (s : session) (d : directory) (i : Z) (answer : option bool) :
  image_files s = [] ∨ len (folders s) <= i →
  move_image_to_folder s d i answer
  = (match image_files s with
     | [] => NoImagesError
     | _ :: _ => InvalidFolderError
     end, s, d).
Proof.
  intros H. unfold move_image_to_folder.
  destruct (image_files s) as [|f0 fs]; [done|].
  destruct H as [H|H]; [done|].
  by replace (len (folders s) <=? i) with true by (symmetry; apply Z.leb_le; lia).
Qed.

Lemma move_guards_witness :
  move_image_to_folder empty_session sample_dir 0 Cancel
  = (NoImagesError, empty_session, sample_dir) ∧
  move_image_to_folder sample_session sample_dir 2 Cancel
  = (InvalidFolderError, sample_session, sample_dir).
Proof.
  split.
  - apply (move_guards empty_session sample_dir 0 Cancel). left. reflexivity.
  - apply (move_guards sample_session sample_dir 2 Cancel). right.
    vm_compute. discriminate.
Defined.

(** C4 as stated fails below zero: with the folders [cats; dogs], index
    [-1] is outside [0 .. 1], yet the image is moved (into [dogs]) and the
    session changes; index [-3] ends in an uncaught [IndexError], not at the
    guard. *)
Lemma move_negative_index_not_rejected :
  image_files sample_session ≠ [] ∧
  ¬ (0 <= -1 < len (folders sample_session)) ∧
  move_image_to_folder sample_session sample_dir (-1) Cancel
  = (Moved (Showing "b.jpg"),
     {| image_files := ["b.jpg"]; current_index := 0;
        folders := ["cats"; "dogs"];
        undo_stack := [(["dogs"; "a.png"], ["a.png"])] |},
     [ ("dogs", Dir {| st_birthtime := Some 20; st_ctime := 25 |}
                    [("a.png", File "aaa")]);
       ("c.txt", File "text");
       ("b.jpg", File "bbb");
       ("cats", Dir {| st_birthtime := Some 10; st_ctime := 30 |} []) ]) ∧
  move_image_to_folder sample_session sample_dir (-3) Cancel
  = (IndexError, sample_session, sample_dir).
Proof.
  split; [discriminate|]. split; [intros [H _]; by apply H|].
  split; reflexivity.
Qed.

(** C10. A negative [folder_index] from [-len(folders)] up passes the only
    guard and selects the folder counted from the end: the call does what
    the call with [len(folders) + folder_index] does, and where the
    destination is free that is the [try] block moving the current image to
    [folders[len(folders) + folder_index]]. *)
Theorem move_negative_folder_index (s : session) (d : directory) (i : Z)
    (answer : option bool) :
  image_files s ≠ [] →
  - len (folders s) <= i < 0 →
  (len (folders s) <=? i) = false ∧
  move_image_to_folder s d i answer
  = move_image_to_folder s d (len (folders s) + i) answer ∧
  (∀ src target,
     Py.getitem (image_files s) (current_index s) = Some src →
     folders s !! Z.to_nat (len (folders s) + i) = Some target →
     exists_ d [target; src] = false →
     move_image_to_folder s d i answer = try_move s d [src] [target; src]).
Proof.
  intros Hne Hi.
  assert (Hg : Py.getitem (folders s) i
               = folders s !! Z.to_nat (len (folders s) + i)).
  { rewrite getitem_negative by done. apply getitem_nonneg. lia. }
  split; [apply Z.leb_gt; lia|]. split.
  - unfold move_image_to_folder. destruct (image_files s) as [|f0 fs]; [done|].
    replace (len (folders s) <=? i) with false by (symmetry; apply Z.leb_gt; lia).
    replace (len (folders s) <=? len (folders s) + i) with false
      by (symmetry; apply Z.leb_gt; lia).
    by rewrite (getitem_negative (folders s) i).
  - intros src target Hsrc Htgt Hfree. apply move_reaches_try; [done| |].
    + by rewrite Hg.
    + by rewrite Hfree.
Qed.

Lemma move_negative_folder_index_witness :
  (image_files sample_session ≠ [] ∧
   - len (folders sample_session) <= -1 < 0) ∧
  move_image_to_folder sample_session sample_dir (-1) Cancel
  = try_move sample_session sample_dir ["a.png"] ["dogs"; "a.png"] ∧
  lookup (try_move sample_session sample_dir ["a.png"] ["dogs"; "a.png"]).2
         ["dogs"; "a.png"] = Some (File "aaa").
Proof.
  assert (H1 : image_files sample_session ≠ []) by discriminate.
  assert (H2 : - len (folders sample_session) <= -1 < 0)
    by (vm_compute; split; [discriminate | reflexivity]).
  split; [exact (conj H1 H2)|].
  destruct (move_negative_folder_index sample_session sample_dir (-1) Cancel H1 H2)
    as (_ & _ & Hmove).
  split; [|reflexivity].
  apply (Hmove "a.png" "dogs"); reflexivity.
Defined.

(** Every way to [Moved] goes through the [try] block. *)
Lemma move_Moved_inv s d i answer v s' d' :
  move_image_to_folder s d i answer = (Moved v, s', d') →
  ∃ src target,
    Py.getitem (image_files s) (current_index s) = Some src ∧
    Py.getitem (folders s) i = Some target ∧
    try_move s d [src] [target; src] = (Moved v, s', d').
Proof.
  unfold move_image_to_folder.
  destruct (image_files s) as [|f0 fs]; [done|].
  destruct (len (folders s) <=? i); [done|].
  destruct (Py.getitem (f0 :: fs) (current_index s)) as [src|]; [|done].
  destruct (Py.getitem (folders s) i) as [target|]; [|done].
  intros H. exists src, target. split; [done|]. split; [done|].
  destruct (exists_ d [target; src]); [|done].
  destruct answer as [[|]|]; [done| |done].
  by destruct (go_to_next_or_finish s).
Qed.

(** C5, as the code has it.  After a move that went through, the undo
    stack has the pair (destination path, source path) on top, the image
    list has lost the entry at the cursor, and a cursor that now equals the
    length of the list is one less than before.  The cursor is not clamped:
    it stays non-negative while images remain and is [-1] once the list is
    empty. *)
Theorem move_success_effect (s : session) (d : directory) (i : Z)
    (answer : option bool) (v : view) (s' : session) (d' : directory) :
  move_image_to_folder s d i answer = (Moved v, s', d') →
  ∃ src target k,
    Py.getitem (image_files s) (current_index s) = Some src ∧
    Py.getitem (folders s) i = Some target ∧
    shutil_move d [src] [target; src] = Some d' ∧
    Py.norm_index (List.length (image_files s)) (current_index s) = Some k ∧
    undo_stack s' = undo_stack s ++ [([target; src], [src])] ∧
    image_files s' = delete k (image_files s) ∧
    folders s' = folders s ∧
    current_index s' = (if current_index s =? len (image_files s')
                        then current_index s - 1 else current_index s) ∧
    (image_files s' ≠ [] → 0 <= current_index s → 0 <= current_index s') ∧
    (image_files s' = [] → current_index s' = -1).
Proof.
  intros (src & target & Hsrc & Htgt & Htry)%move_Moved_inv.
  exists src, target.
  destruct (shutil_move d [src] [target; src]) as [d1|] eqn:Hmv;
    [|unfold try_move in Htry; by rewrite Hmv in Htry].
  destruct (try_move_ok _ _ _ _ _ _ Hmv Hsrc) as (k & Hk & Heq).
  simpl in Heq. rewrite Heq in Htry. clear Heq.
  assert (s' = after_move s [src] [target; src] (delete k (image_files s))
          ∧ d' = d1) as [-> ->].
  { by destruct (go_to_next_or_finish _); inversion Htry. }
  exists k. do 6 (split; [done|]).
  destruct (delitem_of_getitem _ _ _ Hsrc) as (k' & Hk' & _ & Hlen).
  rewrite Hk in Hk'. injection Hk' as <-.
  pose proof (getitem_bounds _ _ _ Hsrc) as Hb.
  simpl. set (rest := delete k (image_files s)) in *.
  assert (Hrest : rest = [] → len rest = 0) by (by intros ->).
  assert (Hrest' : rest ≠ [] → 0 < len rest).
  { destruct rest; [done|]. intros _. rewrite len_cons. pose proof (len_nonneg rest). lia. }
  destruct (len rest <=? current_index s) eqn:E1;
    destruct (Z.eqb_spec (current_index s) (len rest)) as [E2|E2]; zbool;
    repeat split; intros; try lia;
    try (specialize (Hrest ltac:(done))); try (specialize (Hrest' ltac:(done)));
    lia.
Qed.

Lemma move_success_effect_witness :
  move_image_to_folder sample_session sample_dir 1 Cancel
  = (Moved (Showing "b.jpg"),
     after_move sample_session ["a.png"] ["dogs"; "a.png"] ["b.jpg"],
     (try_move sample_session sample_dir ["a.png"] ["dogs"; "a.png"]).2) ∧
  ∃ src target k,
    Py.getitem (image_files sample_session) (current_index sample_session)
    = Some src ∧
    Py.getitem (folders sample_session) 1 = Some target ∧
    shutil_move sample_dir [src] [target; src]
    = Some (try_move sample_session sample_dir ["a.png"] ["dogs"; "a.png"]).2 ∧
    Py.norm_index (List.length (image_files sample_session))
                  (current_index sample_session) = Some k.
Proof.
  assert (H : move_image_to_folder sample_session sample_dir 1 Cancel
              = (Moved (Showing "b.jpg"),
                 after_move sample_session ["a.png"] ["dogs"; "a.png"] ["b.jpg"],
                 (try_move sample_session sample_dir ["a.png"] ["dogs"; "a.png"]).2))
    by reflexivity.
  split; [exact H|].
  destruct (move_success_effect _ _ _ _ _ _ _ H)
    as (src & target & k & H1 & H2 & H3 & H4 & _).
  exists src, target, k. repeat split; assumption.
Defined.

(** C5 as stated fails on the last image: the cursor is [0], the list
    becomes empty, and the cursor is set to [len - 1 = -1], below zero. *)
Lemma move_last_image_cursor_negative :
  let '(o, s', _) := move_image_to_folder (scan single_dir) single_dir 0 Cancel in
  current_index (scan single_dir) = 0 ∧
  o = Moved AllClassified ∧
  image_files s' = [] ∧
  current_index s' = -1 ∧
  ¬ (0 <= current_index s').
Proof.
  vm_compute. repeat split; try reflexivity. intros H. by apply H.
Qed.

(** After the answer "skip" nothing has changed, whatever the session. *)
Lemma skip_keeps_session s d i v s' d' :
  move_image_to_folder s d i Skip = (Skipped v, s', d') →
  s' = s ∧ d' = d ∧ go_to_next_or_finish s = Some v.
Proof.
  unfold move_image_to_folder.
  destruct (image_files s) as [|f0 fs] eqn:E; [done|].
  destruct (len (folders s) <=? i); [done|].
  destruct (Py.getitem (f0 :: fs) (current_index s)) as [src|]; [|done].
  destruct (Py.getitem (folders s) i) as [target|]; [|done].
  destruct (exists_ d [target; src]).
  - simpl. destruct (go_to_next_or_finish s) as [w|]; [|done].
    by intros [= <- <- <-].
  - unfold try_move. destruct (shutil_move _ _ _); [|done]. simpl.
    destruct (Py.delitem _ _); [|done]. by destruct (go_to_next_or_finish _).
Qed.

(** C2, the code at a collision answered "skip".  [cats/a.png] exists and
    [a.png] is the current image: the image list keeps both its entries, the
    cursor stays on [a.png], which is shown again; no undo record is made
    and the directory is untouched. *)
Theorem skip_removes_nothing :
  exists_ collision_dir ["cats"; "a.png"] = true ∧
  image_files (scan collision_dir) = ["a.png"; "b.jpg"] ∧
  current_index (scan collision_dir) = 0 ∧
  move_image_to_folder (scan collision_dir) collision_dir 0 Skip
  = (Skipped (Showing "a.png"), scan collision_dir, collision_dir).
Proof. repeat split. Qed.

(** ** Undo *)

(** C6. [undo_move] with an empty undo stack returns at its guard and
    changes nothing.  With a record on the stack whose restoring
    [shutil.move] raises, it ends in the [except] branch: the record has been
    popped and stays popped, the image list and the cursor are what they
    were (no rescan), and the directory is unchanged. *)
Theorem undo_failures (s : session) (d : directory) :
  (undo_stack s = [] → undo_move s d = (NothingToUndoError, s, d)) ∧
  (∀ rest current_path original_path,
     undo_stack s = rest ++ [(current_path, original_path)] →
     shutil_move d current_path original_path = None →
     undo_move s d = (FileSystemError, set_undo_stack rest s, d) ∧
     image_files (set_undo_stack rest s) = image_files s ∧
     current_index (set_undo_stack rest s) = current_index s ∧
     folders (set_undo_stack rest s) = folders s ∧
     undo_stack (set_undo_stack rest s) = rest).
Proof.
  split.
  - intros E. unfold undo_move. by rewrite E.
  - intros rest cur orig E Hmv. unfold undo_move.
    rewrite E. change (rest ++ [(cur, orig)]) with (Py.append rest (cur, orig)).
    rewrite pop_append. by rewrite Hmv.
Qed.

(** A session whose undo record names a file that is gone from [cats]. *)
Lemma undo_failures_witness :
  let s := set_undo_stack [(["cats"; "a.png"], ["a.png"])] sample_session in
  undo_move empty_session sample_dir
  = (NothingToUndoError, empty_session, sample_dir) ∧
  shutil_move sample_dir ["cats"; "a.png"] ["a.png"] = None ∧
  undo_move s sample_dir = (FileSystemError, sample_session, sample_dir).
Proof.
  split; [|split].
  - apply (proj1 (undo_failures empty_session sample_dir)). reflexivity.
  - reflexivity.
  - apply (proj2 (undo_failures
                    (set_undo_stack [(["cats"; "a.png"], ["a.png"])] sample_session)
                    sample_dir) [] ["cats"; "a.png"] ["a.png"]); reflexivity.
Defined.

(** ** Sorting *)

Section SortFacts.
Context {A K : Type} (key : A → K) (leb : K → K → bool).
Hypothesis leb_total : ∀ a b, leb a b = true ∨ leb b a = true.
Hypothesis leb_trans : ∀ a b c, leb a b = true → leb b c = true → leb a c = true.

Local Abbreviation R := (Py.key_le key leb).
Local Abbreviation ties := (Py.ties key leb).

Lemma insert_Permutation x l : Py.insert key leb x l ≡ₚ x :: l.
Proof.
  induction l as [|y l IH]; simpl; [done|].
  destruct (leb (key x) (key y)); [done|].
  rewrite IH. apply Permutation_swap.
Qed.

Lemma sort_Permutation l : Py.sort key leb l ≡ₚ l.
Proof.
  induction l as [|x l IH]; simpl; [done|].
  by rewrite insert_Permutation, IH.
Qed.

Lemma insert_HdRel y x l :
  R y x → HdRel R y l → HdRel R y (Py.insert key leb x l).
Proof.
  intros Hyx Hl. destruct l as [|z l]; simpl; [by constructor|].
  destruct (leb (key x) (key z)); constructor; [done|].
  by inversion Hl.
Qed.

Lemma insert_Sorted x l : Sorted R l → Sorted R (Py.insert key leb x l).
Proof.
  induction 1 as [|y l Hl IH Hy]; simpl; [by repeat constructor|].
  destruct (leb (key x) (key y)) eqn:E.
  - constructor; [by constructor|]. by constructor.
  - constructor; [done|]. apply insert_HdRel; [|done].
    unfold Py.key_le. destruct (leb_total (key x) (key y)); [congruence|done].
Qed.

Lemma sort_Sorted l : Sorted R (Py.sort key leb l).
Proof.
  induction l as [|x l IH]; simpl; [constructor|]. by apply insert_Sorted.
Qed.

Lemma sort_StronglySorted l : StronglySorted R (Py.sort key leb l).
Proof.
  apply Sorted_StronglySorted; [|apply sort_Sorted].
  intros x y z. unfold Py.key_le. apply leb_trans.
Qed.

(** Stability: entries whose keys tie with that of [z] keep their order. *)
Lemma insert_stable z x l :
  List.filter (ties z) (Py.insert key leb x l) = List.filter (ties z) (x :: l).
Proof.
  induction l as [|y l IH]; [done|].
  simpl Py.insert. destruct (leb (key x) (key y)) eqn:E; [done|].
  cbn [List.filter]. rewrite IH. cbn [List.filter]. unfold Py.ties.
  destruct (leb (key z) (key x)) eqn:E1; destruct (leb (key x) (key z)) eqn:E2;
    destruct (leb (key z) (key y)) eqn:E3; destruct (leb (key y) (key z)) eqn:E4;
    simpl; try done.
  rewrite (leb_trans _ _ _ E2 E3) in E. done.
Qed.

Lemma sort_stable z l :
  List.filter (ties z) (Py.sort key leb l) = List.filter (ties z) l.
Proof.
  induction l as [|x l IH]; [done|].
  simpl Py.sort. rewrite insert_stable. simpl. by rewrite IH.
Qed.
End SortFacts.

(** ** The order of names *)

Lemma string_leb_trans (a b c : string) :
  String.leb a b = true → String.leb b c = true → String.leb a c = true.
Proof.
  unfold String.leb. revert b c.
  induction a as [|x a IH]; intros [|y b] [|z c]; simpl; try done.
  unfold Ascii.compare.
  destruct (N.compare_spec (N_of_ascii x) (N_of_ascii y)) as [Exy|Exy|Exy];
    destruct (N.compare_spec (N_of_ascii y) (N_of_ascii z)) as [Eyz|Eyz|Eyz];
    try done;
    destruct (N.compare_spec (N_of_ascii x) (N_of_ascii z)) as [Exz|Exz|Exz];
    try done; try lia.
  apply IH.
Qed.

#[local] Instance name_le_trans : Transitive name_le.
Proof. intros a b c. apply string_leb_trans. Qed.

#[local] Instance name_le_antisym : AntiSymm (=) name_le.
Proof. intros a b. apply String.leb_antisym. Qed.

Lemma names_sorted (l : list string) :
  StronglySorted name_le (Py.sort id String.leb l).
Proof.
  apply (sort_StronglySorted id String.leb String.leb_total string_leb_trans).
Qed.

(** The sorted list of names depends on the names only, not on the order
    in which [os.listdir] reports them. *)
Lemma names_sort_Permutation (l1 l2 : list string) :
  l1 ≡ₚ l2 → Py.sort id String.leb l1 = Py.sort id String.leb l2.
Proof.
  intros H. apply (StronglySorted_unique name_le); try apply names_sorted.
  by rewrite !sort_Permutation.
Qed.

Lemma Z_leb_total (a b : Z) : (a <=? b) = true ∨ (b <=? a) = true.
Proof. destruct (Z.leb_spec a b); [by left|right]. apply Z.leb_le. lia. Qed.

Lemma Z_leb_trans (a b c : Z) :
  (a <=? b) = true → (b <=? c) = true → (a <=? c) = true.
Proof. rewrite !Z.leb_le. lia. Qed.

Example sort_keeps_ties :
  Py.sort snd Z.leb [("b", 1); ("a", 1); ("c", 0)] = [("c", 0); ("b", 1); ("a", 1)].
Proof. reflexivity. Qed.

(** ** Names and extensions *)

Lemma lower_ascii_dot (c : ascii) :
  Ascii.eqb (Py.lower_ascii c) "." = Ascii.eqb c ".".
Proof. destruct c as [[] [] [] [] [] [] [] []]; reflexivity. Qed.

Lemma extension_lower (f : string) :
  extension (Py.lower f) = Py.lower <$> extension f.
Proof.
  induction f as [|c f IH]; simpl; [done|].
  rewrite IH, lower_ascii_dot.
  destruct (extension f); simpl; [done|]. by destruct (Ascii.eqb c ".").
Qed.

(** A name ends with ["." ++ e], [e] free of dots, exactly when [e] is the
    text after its last dot. *)
Lemma endswith_extension (e : string) :
  extension e = None →
  ∀ f, Py.endswith f (String "." e) = true ↔ extension f = Some e.
Proof.
  intros He f. induction f as [|c f IH]; [done|].
  cbn [Py.endswith extension].
  destruct (String.eqb_spec (String c f) (String "." e)) as [E|E].
  - injection E as -> ->. by rewrite He.
  - destruct (extension f) as [x|] eqn:Ef; [done|].
    split.
    + intros H. apply IH in H. done.
    + destruct (Ascii.eqb_spec c "."); [|done].
      intros [= ->]. by subst.
Qed.

Lemma is_image_extension (f : string) :
  is_image f = true ↔ ∃ e, e ∈ allow_list ∧ extension (Py.lower f) = Some e.
Proof.
  unfold is_image, Py.endswith_any, image_suffixes, allow_list. cbn [existsb].
  rewrite !orb_true_iff.
  rewrite (endswith_extension "png" eq_refl), (endswith_extension "jpg" eq_refl),
    (endswith_extension "jpeg" eq_refl), (endswith_extension "gif" eq_refl),
    (endswith_extension "bmp" eq_refl).
  split.
  - intros [H|[H|[H|[H|[H|H]]]]]; try done; eexists; (split; [|exact H]);
      rewrite !elem_of_cons; tauto.
  - intros (e & He & H). rewrite !elem_of_cons, elem_of_nil in He.
    destruct He as [->|[->|[->|[->|[->|[]]]]]]; tauto.
Qed.

(** [str.lower] as modelled is the lower case of the specification. *)
Lemma lowercase_letter_lower (c : ascii) : lowercase_letter c = Py.lower_ascii c.
Proof. destruct c as [[] [] [] [] [] [] [] []]; reflexivity. Qed.

Lemma lowercase_lower (w : string) : lowercase w = Py.lower w.
Proof.
  induction w as [|c w IH]; simpl; [done|].
  by rewrite IH, lowercase_letter_lower.
Qed.

(** The test of [load_images] is the test of the specification. *)
Lemma is_image_spec (f : string) : is_image f = lowercase_extension_allowed f.
Proof.
  apply eq_true_iff_eq. rewrite is_image_extension.
  unfold lowercase_extension_allowed. rewrite extension_lower.
  destruct (extension f) as [e0|]; simpl; rewrite ?lowercase_lower.
  - rewrite bool_decide_eq_true. split.
    + by intros (e & He & [= <-]).
    + intros H. by exists (Py.lower e0).
  - split; [by intros (e & _ & ?)|done].
Qed.

(** ** Scanning the working directory *)

(** What [load_images] does for every directory: it replaces the image list
    with exactly the names [os.listdir] reports, of files and of
    sub-directories alike, whose lowercase extension is [png], [jpg],
    [jpeg], [gif] or [bmp] (each as often as it is listed), in ascending
    lexicographic order, and sets the cursor to [0]; the folder list and the
    undo stack are untouched. *)
Lemma load_images_sorted_allowed (s : session) (d : directory) :
  let s' := load_images s d in
  image_files s' ≡ₚ List.filter lowercase_extension_allowed (listdir d) ∧
  (∀ f, f ∈ image_files s' ↔ f ∈ listdir d ∧ lowercase_extension_allowed f = true) ∧
  StronglySorted name_le (image_files s') ∧
  current_index s' = 0 ∧
  folders s' = folders s ∧
  undo_stack s' = undo_stack s.
Proof.
  simpl.
  assert (Hp : Py.sort id String.leb (List.filter is_image (listdir d))
               ≡ₚ List.filter lowercase_extension_allowed (listdir d)).
  { rewrite sort_Permutation.
    by rewrite (List.filter_ext _ _ is_image_spec). }
  split; [done|]. split.
  - intros f. rewrite Hp, !list_elem_of_In, filter_In. done.
  - split; [apply names_sorted|done].
Qed.

(** C7 fails on the code where a sub-directory is named like an image.  The
    working directory holds the file [a.PNG], the file [notes.txt] and the
    sub-directory [pics.png]: the files whose lowercase extension is in the
    allow-list are [a.PNG] alone, but [load_images], which never asks what
    kind of entry a name stands for, lists [pics.png] after it as an image;
    [load_folders], which does ask, lists [pics.png] as a folder. *)
Theorem load_images_lists_directory :
  isdir album_dir ["pics.png"] = true ∧
  lowercase_extension_allowed "pics.png" = true ∧
  List.filter (fun f => negb (isdir album_dir [f]) && lowercase_extension_allowed f)
    (listdir album_dir) = ["a.PNG"] ∧
  image_files (load_images empty_session album_dir) = ["a.PNG"; "pics.png"] ∧
  current_index (load_images empty_session album_dir) = 0 ∧
  folders (load_folders empty_session album_dir) = ["pics.png"].
Proof. vm_compute. repeat split. Qed.

(** Upper case sorts before lower case, as in Python; [png] has no dot and
    [notes.txt] has the wrong extension. *)
Example load_images_mixed :
  image_files (load_images empty_session mixed_dir) = ["B.JPeG"; "a.png"; "z.BMP"].
Proof. reflexivity. Qed.

Lemma assoc_elem_of (d : directory) (f : string) (n : node) :
  NoDup (listdir d) → (f, n) ∈ d → assoc f d = Some n.
Proof.
  induction d as [|[g m] d IH]; simpl; intros Hnd Hin.
  - by apply elem_of_nil in Hin.
  - apply NoDup_cons in Hnd as [Hg Hnd].
    apply elem_of_cons in Hin as [[= -> ->]|Hin].
    + by rewrite String.eqb_refl.
    + destruct (String.eqb_spec f g) as [->|_]; [|by apply IH].
      destruct Hg. apply list_elem_of_fmap. by exists (g, n).
Qed.


(** With no name listed twice, looking each name up again (as the loop of
    [load_folders] does through [os.path.isdir] and [os.stat]) finds the
    entry the name came from. *)
Lemma folder_scan_suffix (d suf : directory) :
  (∀ f n, (f, n) ∈ suf → assoc f d = Some n) →
  omap (fun f =>
          if isdir d [f] && negb (Py.startswith f ".")
          then st ← os_stat d [f]; Some (f, create_time st)
          else None) (map fst suf)
  = visible_subdirectories suf.
Proof.
  unfold visible_subdirectories.
  induction suf as [|[f n] suf IH]; intros H; [done|].
  cbn [map omap list_omap fst snd].
  rewrite IH by (intros; apply H; by apply list_elem_of_further).
  unfold isdir, os_stat. cbn [lookup].
  rewrite (H f n) by apply list_elem_of_here.
  destruct n as [data|st ents]; [done|].
  by destruct (Py.startswith f ".").
Qed.

Lemma folder_with_time_visible (d : directory) :
  well_formed d → folder_with_time d = visible_subdirectories d.
Proof.
  intros Hwf. apply folder_scan_suffix.
  intros f n Hin. by apply assoc_elem_of.
Qed.

Lemma StronglySorted_weaken {A} (R1 R2 : relation A) (l : list A) :
  (∀ x y, R1 x y → R2 x y) → StronglySorted R1 l → StronglySorted R2 l.
Proof.
  intros H. induction 1 as [|x l Hl IH Hx]; constructor; [done|].
  eapply Forall_impl; [exact Hx|]. intros y. apply H.
Qed.

(** C8. In a working directory that lists no name twice, [load_folders]
    replaces the folder list with exactly the sub-directories whose name
    does not start with a dot, in ascending order of their creation time,
    the last-metadata-change time standing in where the platform reports no
    creation time.  The rest of the session is untouched. *)
Theorem load_folders_sorted_visible (s : session) (d : directory) :
  well_formed d →
  let s' := load_folders s d in
  ∃ timed : list (string * Z),
    folders s' = timed.*1 ∧
    timed ≡ₚ visible_subdirectories d ∧
    StronglySorted time_le timed ∧
    image_files s' = image_files s ∧
    current_index s' = current_index s ∧
    undo_stack s' = undo_stack s.
Proof.
  intros Hwf. simpl.
  exists (Py.sort snd Z.leb (folder_with_time d)).
  split; [done|]. split.
  - rewrite sort_Permutation. by rewrite folder_with_time_visible.
  - split; [|done].
    apply (StronglySorted_weaken (Py.key_le snd Z.leb)).
    + intros x y. unfold Py.key_le, time_le. apply Z.leb_le.
    + apply sort_StronglySorted; [apply Z_leb_total|apply Z_leb_trans].
Qed.

Lemma load_folders_sorted_visible_witness :
  well_formed mixed_dir ∧
  visible_subdirectories mixed_dir = [("new", 9); ("old", 4)] ∧
  folders (load_folders empty_session mixed_dir) = ["old"; "new"] ∧
  ∃ timed : list (string * Z),
    folders (load_folders empty_session mixed_dir) = timed.*1 ∧
    timed ≡ₚ visible_subdirectories mixed_dir ∧
    StronglySorted time_le timed.
Proof.
  assert (Hwf : well_formed mixed_dir).
  { apply (bool_decide_unpack (NoDup (listdir mixed_dir))). vm_compute. exact I. }
  split; [exact Hwf|]. split; [reflexivity|]. split; [reflexivity|].
  destruct (load_folders_sorted_visible empty_session mixed_dir Hwf)
    as (timed & H1 & H2 & H3 & _).
  exists timed. auto.
Defined.

(** ** Entries of a directory *)

Section EntryFacts.
Implicit Types (d : directory) (x y : string) (n m : node).

Lemma assoc_None_listdir d x : assoc x d = None ↔ x ∉ listdir d.
Proof.
  induction d as [|[y n] d IH]; simpl.
  - split; [intros _; apply not_elem_of_nil|done].
  - rewrite not_elem_of_cons. destruct (String.eqb_spec x y) as [->|Hne].
    + split; [done|]. by intros [? _].
    + rewrite IH. tauto.
Qed.

Lemma assoc_remove_same d x : NoDup (listdir d) → assoc x (remove_entry x d) = None.
Proof.
  induction d as [|[y n] d IH]; simpl; [done|].
  intros [Hy Hnd]%NoDup_cons.
  destruct (String.eqb_spec x y) as [->|Hne].
  - by apply assoc_None_listdir.
  - simpl. destruct (String.eqb_spec x y); [done|]. by apply IH.
Qed.

Lemma assoc_remove_other d x y : x ≠ y → assoc y (remove_entry x d) = assoc y d.
Proof.
  intros Hne. induction d as [|[z n] d IH]; simpl; [done|].
  destruct (String.eqb_spec x z) as [->|Hxz]; simpl.
  - by destruct (String.eqb_spec y z) as [->|_].
  - by rewrite IH.
Qed.

Lemma assoc_replace_same d x n m :
  assoc x d = Some n → assoc x (replace_entry x m d) = Some m.
Proof.
  induction d as [|[z k] d IH]; simpl; [done|].
  destruct (String.eqb_spec x z) as [->|Hxz]; simpl.
  - by rewrite String.eqb_refl.
  - destruct (String.eqb_spec x z); [done|]. apply IH.
Qed.

Lemma assoc_replace_other d x y m :
  x ≠ y → assoc y (replace_entry x m d) = assoc y d.
Proof.
  intros Hne. induction d as [|[z k] d IH]; simpl; [done|].
  destruct (String.eqb_spec x z) as [->|Hxz]; simpl.
  - by destruct (String.eqb_spec y z) as [->|_].
  - by rewrite IH.
Qed.

Lemma assoc_app d d' x :
  assoc x (d ++ d') = match assoc x d with Some n => Some n | None => assoc x d' end.
Proof.
  induction d as [|[z k] d IH]; simpl; [done|].
  by destruct (String.eqb x z).
Qed.

Lemma assoc_link_same d x m : assoc x (link_entry x m d) = Some m.
Proof.
  unfold link_entry. destruct (assoc x d) as [n|] eqn:E.
  - by eapply assoc_replace_same.
  - rewrite assoc_app, E. simpl. by rewrite String.eqb_refl.
Qed.

Lemma listdir_replace d x m : listdir (replace_entry x m d) = listdir d.
Proof.
  unfold listdir. induction d as [|[z k] d IH]; simpl; [done|].
  destruct (String.eqb x z); simpl; [done|]. by rewrite IH.
Qed.

Lemma listdir_remove d x n :
  assoc x d = Some n → listdir d ≡ₚ x :: listdir (remove_entry x d).
Proof.
  unfold listdir. induction d as [|[z k] d IH]; simpl; [done|].
  destruct (String.eqb_spec x z) as [->|Hxz]; simpl; [done|].
  intros H. rewrite (IH H). apply Permutation_swap.
Qed.

Lemma filter_Permutation {A} (p : A → bool) (l1 l2 : list A) :
  l1 ≡ₚ l2 → List.filter p l1 ≡ₚ List.filter p l2.
Proof.
  induction 1 as [|x l1 l2 H IH|x y l|l1 l2 l3 H1 IH1 H2 IH2]; simpl.
  - done.
  - destruct (p x); by rewrite IH.
  - destruct (p x), (p y); try done. apply Permutation_swap.
  - by rewrite IH1.
Qed.

Lemma filter_NoDup {A} (p : A → bool) (l : list A) :
  NoDup l → NoDup (List.filter p l).
Proof.
  induction 1 as [|x l Hx Hnd IH]; simpl; [constructor|].
  destruct (p x); [|done]. constructor; [|done].
  rewrite list_elem_of_In, filter_In, <- list_elem_of_In. tauto.
Qed.
End EntryFacts.

(** ** Moving a file into a folder and back *)

Lemma path_eqb_length (p q : path) :
  List.length p ≠ List.length q → path_eqb p q = false.
Proof.
  intros H. unfold path_eqb. apply bool_decide_eq_false_2. by intros ->.
Qed.

(** A regular file goes into a folder of the working directory, taking the
    place of a regular file of its name there. *)
Lemma move_into_folder d src target data st ents :
  assoc src d = Some (File data) →
  assoc target d = Some (Dir st ents) →
  isdir d [target; src] = false →
  shutil_move d [src] [target; src]
  = Some (replace_entry target (Dir st (link_entry src (File data) ents))
            (remove_entry src d)).
Proof.
  intros Hsrc Htgt Hdir.
  assert (Hne : src ≠ target) by (intros ->; congruence).
  unfold shutil_move. rewrite Hdir. unfold os_rename.
  cbn [lookup]. rewrite Hsrc, Htgt.
  rewrite path_eqb_length by (simpl; lia).
  cbn [is_prefix]. destruct (String.eqb_spec src target) as [?|_]; [done|].
  assert (Hrelink :
    ('(m, d1) ← detach d [src]; attach d1 [target; src] m)
    = Some (replace_entry target (Dir st (link_entry src (File data) ents))
              (remove_entry src d))).
  { cbn [detach]. rewrite Hsrc. cbn [mbind option_bind attach].
    rewrite assoc_remove_other by done. by rewrite Htgt. }
  unfold isdir in Hdir. cbn [lookup] in Hdir. rewrite Htgt in Hdir.
  destruct (assoc src ents) as [[?|? ?]|]; [exact Hrelink|done|exact Hrelink].
Qed.

(** The file comes back out of the folder, to a name that is free. *)
Lemma move_out_of_folder d src target data st ents :
  assoc src d = None →
  assoc target d = Some (Dir st ents) →
  assoc src ents = Some (File data) →
  shutil_move d [target; src] [src]
  = Some (replace_entry target (Dir st (remove_entry src ents)) d
          ++ [(src, File data)]).
Proof.
  intros Hsrc Htgt Hin.
  assert (Hne : target ≠ src) by (intros ->; congruence).
  unfold shutil_move, isdir. cbn [lookup]. rewrite Hsrc.
  unfold os_rename. cbn [lookup]. rewrite Htgt, Hin, Hsrc.
  rewrite path_eqb_length by (simpl; lia).
  cbn [is_prefix]. destruct (String.eqb_spec target src) as [?|_]; [done|].
  cbn [detach]. rewrite Htgt, Hin. cbn [mbind option_bind attach].
  unfold link_entry. by rewrite assoc_replace_other, Hsrc.
Qed.

Lemma go_to_next_in_range s :
  image_files s = [] ∨ 0 <= current_index s < len (image_files s) →
  ∃ v, go_to_next_or_finish s = Some v.
Proof.
  unfold go_to_next_or_finish. intros [E|H].
  - rewrite E. by eexists.
  - destruct (show_in_range s H) as (f & _ & Hs).
    destruct (image_files s); by eexists.
Qed.

(** A folder of a session in step with the directory is a sub-directory. *)
Lemma synced_folder_is_dir s d i target :
  folders s = folders (load_folders s d) →
  Py.getitem (folders s) i = Some target →
  ∃ st ents, assoc target d = Some (Dir st ents).
Proof.
  intros Hsync (k & _ & Hk)%getitem_Some.
  apply list_elem_of_lookup_2 in Hk. rewrite Hsync in Hk. simpl in Hk.
  apply list_elem_of_fmap in Hk as ([f t] & -> & Hin).
  rewrite sort_Permutation in Hin. unfold folder_with_time in Hin.
  apply list_elem_of_omap in Hin as (g & _ & Hg). simpl.
  unfold isdir, os_stat in Hg. cbn [lookup] in Hg.
  destruct (assoc g d) as [[?|st ents]|] eqn:E; try done.
  destruct (negb (Py.startswith g ".")); [|done].
  simpl in Hg. injection Hg as -> _. by exists st, ents.
Qed.

(** The round trip where the destination path is no directory.  The image
    list is the one a scan of the working directory gives, the directory
    lists no name twice, the cursor is on a regular file, the folder index
    (counted from either end) selects a name that is a sub-directory, and
    the destination path is free or names a regular file that the answer
    "overwrite" gives up.  Then the move goes through, the undo goes through,
    and afterwards the file is back at its source path with its content, the
    session is the one before the move (same image list, so the name is at
    its old position, and the same cursor, which points at it), and a
    further [load_images] gives the same image list again. *)
Lemma move_then_undo_restores (s : session) (d : directory) (i : Z)
    (answer : option bool) (src target data : string) :
  well_formed d →
  image_files s = image_files (load_images s d) →
  0 <= current_index s →
  Py.getitem (image_files s) (current_index s) = Some src →
  Py.getitem (folders s) i = Some target →
  lookup d [src] = Some (File data) →
  isdir d [target] = true →
  isdir d [target; src] = false →
  (exists_ d [target; src] = true → answer = Overwrite) →
  ∃ v s1 d1 d2,
    move_image_to_folder s d i answer = (Moved v, s1, d1) ∧
    lookup d1 [src] = None ∧
    lookup d1 [target; src] = Some (File data) ∧
    undo_move s1 d1 = (Undone (Showing src), s, d2) ∧
    lookup d2 [src] = Some (File data) ∧
    image_files (load_images s d2) = image_files s ∧
    image_files s !! Z.to_nat (current_index s) = Some src.
Proof.
  intros Hwf Himg Hc Hsrc Htgt Hfile Hfolder Hdir Hans.
  cbn [lookup] in Hfile.
  unfold isdir in Hfolder. cbn [lookup] in Hfolder.
  destruct (assoc target d) as [[?|st ents]|] eqn:Efolder; try done.
  clear Hfolder. rename Efolder into Hfolder.
  assert (Hne : src ≠ target) by (intros ->; congruence).
  pose proof (getitem_bounds _ _ _ Hsrc) as Hb.
  assert (Hcur : image_files s !! Z.to_nat (current_index s) = Some src)
    by (by rewrite <- getitem_nonneg by lia).
  (* the move *)
  pose proof (move_into_folder _ _ _ _ _ _ Hfile Hfolder Hdir) as Hmv.
  set (ents1 := link_entry src (File data) ents) in *.
  set (d1 := replace_entry target (Dir st ents1) (remove_entry src d)) in *.
  destruct (try_move_ok _ _ _ _ _ _ Hmv Hsrc) as (k & Hk & Htry).
  rewrite norm_index_nonneg in Hk by (unfold len in Hb; lia).
  injection Hk as <-. simpl in Htry.
  set (rest := delete (Z.to_nat (current_index s)) (image_files s)) in *.
  set (s1 := after_move s [src] [target; src] rest) in *.
  destruct (go_to_next_in_range s1) as [v Hv].
  { destruct rest as [|r0 rest'] eqn:Er; [by left|right]. simpl.
    assert (len (r0 :: rest') = len (image_files s) - 1) as ->.
    { rewrite <- Er. unfold rest, len. rewrite length_delete by eauto. 
      apply lookup_lt_Some in Hcur. lia. }
    pose proof (len_cons r0 rest') as Hl. pose proof (len_nonneg rest').
    assert (len (image_files s) - 1 = len rest' + 1) as Hl'.
    { rewrite <- Hl, <- Er. unfold rest, len. rewrite length_delete by eauto.
      apply lookup_lt_Some in Hcur. lia. }
    destruct (len (image_files s) - 1 <=? current_index s) eqn:E; zbool; lia. }
  rewrite Hv in Htry.
  assert (Hgone : assoc src d1 = None).
  { unfold d1. rewrite assoc_replace_other by done. by apply assoc_remove_same. }
  assert (Hfolder1 : assoc target d1 = Some (Dir st ents1)).
  { unfold d1. eapply assoc_replace_same. by rewrite assoc_remove_other. }
  assert (Hthere : assoc src ents1 = Some (File data))
    by apply assoc_link_same.
  (* the undo *)
  pose proof (move_out_of_folder _ _ _ _ _ _ Hgone Hfolder1 Hthere) as Hback.
  set (d2 := replace_entry target (Dir st (remove_entry src ents1)) d1
             ++ [(src, File data)]) in *.
  assert (Hlist : listdir d2 ≡ₚ listdir d).
  { unfold d2, d1, listdir. rewrite map_app. fold (listdir d).
    change (map fst ?x) with (listdir x). rewrite !listdir_replace. simpl.
    rewrite (listdir_remove d src _ Hfile).
    by rewrite <- Permutation_cons_append. }
  assert (Hrescan : ∀ t, image_files (load_images t d2) = image_files s).
  { intros t. rewrite Himg. simpl. apply names_sort_Permutation.
    by apply filter_Permutation. }
  assert (Hnd : NoDup (image_files s)).
  { rewrite Himg. simpl. rewrite sort_Permutation. by apply filter_NoDup. }
  exists v, s1, d1, d2.
  split; [by rewrite (move_reaches_try _ _ _ _ _ _ Hsrc Htgt Hans)|].
  split; [done|]. split; [by cbn [lookup]; rewrite Hfolder1|].
  split; [|split; [|by split]].
  - unfold undo_move. cbn [undo_stack s1 after_move].
    change (undo_stack s ++ [([target; src], [src])])
      with (Py.append (undo_stack s) ([target; src], [src])).
    rewrite pop_append, Hback.
    cbn [basename List.last].
    rewrite (Hrescan _), (index_NoDup _ _ _ Hnd Hcur).
    assert (set_current_index (Z.of_nat (Z.to_nat (current_index s)))
              (load_images (set_undo_stack (undo_stack s) s1) d2) = s) as ->.
    { rewrite Z2Nat.id by done. unfold set_current_index.
      rewrite (Hrescan _). by destruct s. }
    destruct (show_in_range s) as (f & Hf & ->); [lia|].
    rewrite Hsrc in Hf. by injection Hf as <-.
  - cbn [lookup]. unfold d2. rewrite assoc_app.
    rewrite assoc_replace_other by done. rewrite Hgone. simpl.
    by rewrite String.eqb_refl.
Qed.

(** The collision scenario: [cats/a.png] exists as a file and is given up;
    the folder is selected from the end of the list. *)
Lemma move_then_undo_restores_witness :
  well_formed collision_dir ∧
  exists_ collision_dir ["cats"; "a.png"] = true ∧
  ∃ v s1 d1 d2,
    move_image_to_folder (scan collision_dir) collision_dir (-1) Overwrite
    = (Moved v, s1, d1) ∧
    lookup d1 ["a.png"] = None ∧
    lookup d1 ["cats"; "a.png"] = Some (File "new") ∧
    undo_move s1 d1 = (Undone (Showing "a.png"), scan collision_dir, d2) ∧
    lookup d2 ["a.png"] = Some (File "new") ∧
    image_files (load_images (scan collision_dir) d2)
    = image_files (scan collision_dir) ∧
    image_files (scan collision_dir)
      !! Z.to_nat (current_index (scan collision_dir)) = Some "a.png".
Proof.
  assert (Hwf : well_formed collision_dir).
  { apply (bool_decide_unpack (NoDup (listdir collision_dir))). vm_compute. exact I. }
  split; [exact Hwf|]. split; [reflexivity|].
  apply (move_then_undo_restores (scan collision_dir) collision_dir (-1) Overwrite
           "a.png" "cats" "new" Hwf).
  - reflexivity.
  - vm_compute. discriminate.
  - reflexivity.
  - reflexivity.
  - reflexivity.
  - reflexivity.
  - reflexivity.
  - intros _. reflexivity.
Defined.

(** C1 fails on the code where the destination path is a directory.  The
    working directory holds [a.png], [b.jpg] and the folder [cats], in which
    [a.png] is an (empty) directory; the session is in step, the cursor is
    on [a.png], folder 0 is chosen and the prompt is answered "overwrite".
    [shutil.move] puts the file inside the directory, at
    [cats/a.png/a.png], while the undo record says [cats/a.png]; the undo
    then moves that directory to the source path.  Both operations go
    through, yet the source path now names a directory, not the file that
    was moved. *)
Theorem undo_after_move_into_directory :
  well_formed nested_dir ∧
  in_sync (scan nested_dir) nested_dir ∧
  image_files (scan nested_dir) = ["a.png"; "b.jpg"] ∧
  folders (scan nested_dir) = ["cats"] ∧
  lookup nested_dir ["a.png"] = Some (File "aaa") ∧
  exists_ nested_dir ["cats"; "a.png"] = true ∧
  let '(o1, s1, d1) :=
    move_image_to_folder (scan nested_dir) nested_dir 0 Overwrite in
  let '(o2, s2, d2) := undo_move s1 d1 in
  o1 = Moved (Showing "b.jpg") ∧
  lookup d1 ["cats"; "a.png"; "a.png"] = Some (File "aaa") ∧
  undo_stack s1 = [(["cats"; "a.png"], ["a.png"])] ∧
  o2 = Undone (Showing "a.png") ∧
  lookup d2 ["a.png"]
  = Some (Dir {| st_birthtime := None; st_ctime := 11 |} [("a.png", File "aaa")]) ∧
  lookup d2 ["a.png"] ≠ lookup nested_dir ["a.png"].
Proof.
  split.
  { apply (bool_decide_unpack (NoDup (listdir nested_dir))). vm_compute. exact I. }
  split; [split; reflexivity|].
  vm_compute. repeat split; discriminate.
Qed.

(** ** The scenario of the specification

    [a.png], [b.jpg], [c.txt], folders [cats] (created first) and [dogs]:
    the scans give [a.png; b.jpg] and [cats; dogs]; moving to folder 1 puts
    [a.png] into [dogs], records the pair and leaves [b.jpg] current; the
    undo brings back the directory entries and the session, cursor on
    [a.png]. *)
Example specification_scenario :
  image_files sample_session = ["a.png"; "b.jpg"] ∧
  folders sample_session = ["cats"; "dogs"] ∧
  let '(o1, s1, d1) := move_image_to_folder sample_session sample_dir 1 Cancel in
  let '(o2, s2, d2) := undo_move s1 d1 in
  o1 = Moved (Showing "b.jpg") ∧
  lookup d1 ["dogs"; "a.png"] = Some (File "aaa") ∧
  undo_stack s1 = [(["dogs"; "a.png"], ["a.png"])] ∧
  o2 = Undone (Showing "a.png") ∧
  s2 = sample_session ∧
  d2 = sample_dir.
Proof. vm_compute. repeat split. Qed.

(** * Further properties of the session and its shell *)

Import Shell.

(** ** Start-up *)



Lemma image_files_elem_of s d f :
  f ∈ image_files (load_images s d) ↔ f ∈ listdir d ∧ is_image f = true.
Proof.
  simpl. rewrite sort_Permutation, !list_elem_of_In, filter_In. done.
Qed.

Lemma image_files_NoDup s d :
  well_formed d → NoDup (image_files (load_images s d)).
Proof.
  intros Hwf. simpl. rewrite sort_Permutation. by apply filter_NoDup.
Qed.

(** X1. [__init__] on a working directory that lists no name twice: both
    lists are those of a rescan, the cursor is [0], the undo stack is empty,
    and the label shows the first image in lexicographic order, or "no
    images found" when there is none. *)
Theorem init_state (d : directory) :
  well_formed d →
  let '(s, shown) := init d in
  in_sync s d ∧ invariant (s, d) ∧
  current_index s = 0 ∧ undo_stack s = [] ∧
  match image_files s with
  | [] => shown = Some NoImagesFound
  | f :: rest => shown = Some (Showing f) ∧ Forall (name_le f) rest
  end.
Proof.
  intros Hwf. unfold init.
  set (s := load_folders (load_images empty_session d) d).
  assert (Hs : StronglySorted name_le (image_files s)) by apply names_sorted.
  split; [by split|]. split.
  - split; [done|]. split; [done|]. split; [|constructor].
    unfold cursor_ok. change (current_index (s, d).1) with 0.
    destruct (image_files (s, d).1) as [|f rest]; [by left|].
    right. rewrite len_cons. pose proof (len_nonneg rest). lia.
  - split; [done|]. split; [done|].
    unfold show_current_image. change (current_index s) with 0.
    destruct (image_files s) as [|f rest]; [done|].
    split; [done|]. by inversion Hs.
Qed.

Lemma init_state_witness :
  well_formed mixed_dir ∧
  (init mixed_dir).2 = Some (Showing "B.JPeG") ∧
  invariant ((init mixed_dir).1, mixed_dir).
Proof.
  assert (Hwf : well_formed mixed_dir).
  { apply (bool_decide_unpack (NoDup (listdir mixed_dir))). vm_compute. exact I. }
  split; [exact Hwf|]. split; [reflexivity|].
  pose proof (init_state mixed_dir Hwf) as H.
  destruct (init mixed_dir) as [s shown]. exact (proj1 (proj2 H)).
Defined.

(** X2. The image list does not depend on the order in which [os.listdir]
    reports the names: two directories listing the same names give the same
    list. *)
Theorem load_images_any_listing_order (s1 s2 : session) (d1 d2 : directory) :
  listdir d1 ≡ₚ listdir d2 →
  image_files (load_images s1 d1) = image_files (load_images s2 d2).
Proof.
  intros H. simpl. apply names_sort_Permutation. by apply filter_Permutation.
Qed.

Lemma load_images_any_listing_order_witness :
  listdir (rev sample_dir) ≡ₚ listdir sample_dir ∧
  image_files (load_images empty_session (rev sample_dir))
  = image_files (load_images sample_session sample_dir).
Proof.
  assert (H : listdir (rev sample_dir) ≡ₚ listdir sample_dir).
  { unfold listdir. rewrite map_rev. symmetry. apply Permutation_rev. }
  split; [exact H|].
  exact (load_images_any_listing_order empty_session sample_session _ _ H).
Defined.

(** ** What a move does to the listing of the working directory *)

Lemma detach_deep d a b p :
  detach d (a :: b :: p)
  = match assoc a d with
    | Some (Dir st e) =>
        match detach e (b :: p) with
        | Some (m, e') => Some (m, replace_entry a (Dir st e') d)
        | None => None
        end
    | _ => None
    end.
Proof. destruct (assoc a d) as [[?|? ?]|] eqn:E; simpl; by rewrite E. Qed.

Lemma attach_deep d a b p m :
  attach d (a :: b :: p) m
  = match assoc a d with
    | Some (Dir st e) =>
        match attach e (b :: p) m with
        | Some e' => Some (replace_entry a (Dir st e') d)
        | None => None
        end
    | _ => None
    end.
Proof. destruct (assoc a d) as [[?|? ?]|] eqn:E; simpl; by rewrite E. Qed.




(** A rename that goes through was a relinking, unless both paths are the
    same. *)
Lemma os_rename_Some d src dst d' :
  os_rename d src dst = Some d' →
  src = dst ∧ d' = d ∧ is_Some (lookup d src) ∨
  ∃ m d1, detach d src = Some (m, d1) ∧ attach d1 dst m = Some d'.
Proof.
  unfold os_rename. destruct (lookup d src) as [n|]; [|done].
  unfold path_eqb. case_bool_decide; [intros [= <-]; by left|].
  destruct (is_prefix src dst); [done|].
  intros Hmatch. right.
  assert (Hre : ('(m, d1) ← detach d src; attach d1 dst m) = Some d').
  { destruct (lookup d dst) as [[?|? [|? ?]]|], n; done. }
  destruct (detach d src) as [[m d1]|]; [|done]. by exists m, d1.
Qed.

Lemma shutil_move_Some d src dst d' :
  shutil_move d src dst = Some d' →
  ∃ real_dst, os_rename d src real_dst = Some d' ∧
              (real_dst = dst ∨ (real_dst = dst ++ [basename src] ∧ src ≠ dst)).
Proof.
  unfold shutil_move. destruct (isdir d dst); [|by exists dst; auto].
  unfold path_eqb. case_bool_decide; [by exists dst; auto|].
  destruct (exists_ d _); [done|]. intros Hre. eexists. by eauto.
Qed.





(** ** What [move_image_to_folder] keeps *)

Lemma cursor_ok_getitem s :
  cursor_ok s → image_files s ≠ [] →
  0 <= current_index s < len (image_files s) ∧
  ∃ f, Py.getitem (image_files s) (current_index s) = Some f.
Proof.
  intros [E|H] Hne; [done|]. split; [done|].
  destruct (show_in_range s H) as (f & Hf & _). by exists f.
Qed.

Lemma after_move_cursor_ok s src_path dst_path :
  0 <= current_index s < len (image_files s) →
  cursor_ok (after_move s src_path dst_path
               (delete (Z.to_nat (current_index s)) (image_files s))).
Proof.
  intros H. unfold cursor_ok. simpl.
  set (rest := delete (Z.to_nat (current_index s)) (image_files s)).
  assert (Hlen : len rest = len (image_files s) - 1).
  { unfold rest, len in *. rewrite length_delete; [lia|].
    apply lookup_lt_is_Some_2. lia. }
  destruct rest as [|r0 rest'] eqn:E; [by left|right].
  rewrite <- E in *. destruct (len rest <=? current_index s) eqn:Ele; zbool.
  - simpl. assert (0 < len rest) by (rewrite E, len_cons; pose proof (len_nonneg rest'); lia).
    lia.
  - lia.
Qed.

(** With the cursor on a position of the list, a move either changes
    nothing or runs its [try] block to the end. *)
Lemma move_cases s d i a o s' d' :
  cursor_ok s →
  move_image_to_folder s d i a = (o, s', d') →
  (s' = s ∧ d' = d ∧ (∀ v, o ≠ Moved v) ∧ (0 <= i → o ≠ IndexError)) ∨
  (∃ v src target,
     o = Moved v ∧
     0 <= current_index s < len (image_files s) ∧
     image_files s !! Z.to_nat (current_index s) = Some src ∧
     Py.getitem (folders s) i = Some target ∧
     shutil_move d [src] [target; src] = Some d' ∧
     s' = after_move s [src] [target; src]
            (delete (Z.to_nat (current_index s)) (image_files s))).
Proof.
  intros Hc. unfold move_image_to_folder.
  destruct (image_files s) as [|f0 fs] eqn:E.
  { intros [= <- <- <-]. left. repeat split; done. }
  destruct (cursor_ok_getitem s Hc) as (Hr & src & Hsrc); [by rewrite E|].
  rewrite E in Hsrc, Hr.
  destruct (len (folders s) <=? i) eqn:Eg.
  { intros [= <- <- <-]. left. repeat split; done. }
  rewrite Hsrc. zbool.
  destruct (Py.getitem (folders s) i) as [target|] eqn:Htgt.
  2:{ intros [= <- <- <-]. left. do 3 (split; [done|]). intros Hi _.
      rewrite getitem_nonneg in Htgt by lia.
      apply lookup_ge_None in Htgt. unfold len in Eg. lia. }
  assert (Htry : ∀ o s' d',
    try_move s d [src] [target; src] = (o, s', d') →
    (s' = s ∧ d' = d ∧ (∀ v, o ≠ Moved v) ∧ (0 <= i → o ≠ IndexError)) ∨
    (∃ v src0 target0,
       o = Moved v ∧ 0 <= current_index s < len (f0 :: fs) ∧
       (f0 :: fs) !! Z.to_nat (current_index s) = Some src0 ∧
       Some target = Some target0 ∧
       shutil_move d [src0] [target0; src0] = Some d' ∧
       s' = after_move s [src0] [target0; src0]
              (delete (Z.to_nat (current_index s)) (f0 :: fs)))).
  { clear o s' d'. intros o s' d'.
    destruct (shutil_move d [src] [target; src]) as [d1|] eqn:Hmv.
    - rewrite <- E in Hsrc, Hr.
      destruct (try_move_ok _ _ _ _ _ _ Hmv Hsrc) as (k & Hk & Heq).
      rewrite norm_index_nonneg in Hk by (unfold len in Hr; lia).
      injection Hk as <-. simpl in Heq. rewrite Heq.
      destruct (go_to_next_in_range
                  (after_move s [src] [target; src]
                     (delete (Z.to_nat (current_index s)) (image_files s))))
        as [v Hv]; [by apply after_move_cursor_ok|].
      rewrite Hv. intros [= <- <- <-]. right. exists v, src, target.
      rewrite <- E. rewrite getitem_nonneg in Hsrc by done.
      repeat split; (done || lia).
    - unfold try_move. rewrite Hmv. intros [= <- <- <-]. left. repeat split; done. }
  destruct (exists_ d [target; src]); [|apply Htry].
  destruct a as [[|]|]; [apply Htry| |].
  - destruct (go_to_next_in_range s Hc) as [v ->].
    intros [= <- <- <-]. left. repeat split; done.
  - intros [= <- <- <-]. left. repeat split; done.
Qed.






Lemma sample_invariant : invariant (sample_session, sample_dir).
Proof.
  split; [|split; [reflexivity|split; [|constructor]]].
  - apply (bool_decide_unpack (NoDup (listdir sample_dir))). vm_compute. exact I.
  - right. vm_compute. split; [discriminate|reflexivity].
Defined.




(** ** What [undo_move] keeps *)





(** ** Creating a folder *)

Lemma exists_assoc d x : exists_ d [x] = false ↔ assoc x d = None.
Proof. unfold exists_. cbn [lookup]. by destruct (assoc x d). Qed.

Lemma makedirs_well_formed d name st :
  well_formed d → exists_ d [name] = false →
  well_formed (d ++ [(name, Dir st [])]).
Proof.
  unfold well_formed, listdir. intros Hwf Hfree%exists_assoc%assoc_None_listdir.
  rewrite map_app. apply NoDup_app. split; [done|]. split; [|apply NoDup_singleton].
  intros x Hx ->%list_elem_of_singleton. done.
Qed.

Lemma visible_subdirectories_app d1 d2 :
  visible_subdirectories (d1 ++ d2)
  = visible_subdirectories d1 ++ visible_subdirectories d2.
Proof. apply omap_app. Qed.

Lemma create_folder_Created s d name made c s' d' :
  create_folder s d name made = (c, s', d') →
  c = Created →
  ∃ st, made = Some st ∧ name ≠ EmptyString ∧ exists_ d [name] = false ∧
        d' = d ++ [(name, Dir st [])] ∧ s' = load_folders s d'.
Proof.
  unfold create_folder, os_makedirs. destruct name as [|c0 name]; [by intros [= <-]|].
  destruct (exists_ d [String c0 name]); [by intros [= <-]|].
  destruct made as [st|]; simpl; [|by intros [= <-]].
  intros [= <- <- <-] _. by exists st.
Qed.

Lemma create_folder_not_Created s d name made c s' d' :
  create_folder s d name made = (c, s', d') →
  c ≠ Created → s' = s ∧ d' = d.
Proof.
  unfold create_folder, os_makedirs. destruct name as [|c0 name].
  { by intros [= <- <- <-]. }
  destruct (exists_ d [String c0 name]); [by intros [= <- <- <-]|].
  destruct made as [st|]; simpl; by intros [= <- <- <-].
Qed.

(** X8. [create_folder] with a name that is one path component and is
    free, where [os.makedirs] goes through: the working directory gains one
    empty directory of that name, lists no name twice, lists the names it
    listed plus the new one, and every path under another name leads where
    it led.  Only the folders are rescanned: image list, cursor and undo
    stack are untouched.  The folder list then holds the names of the
    non-hidden sub-directories the working directory had, and the new name
    exactly when it does not start with a dot. *)
Theorem create_folder_success (s : session) (d : directory) (name : string)
    (st : stat_result) :
  well_formed d →
  one_component name = true →
  exists_ d [name] = false →
  let '(c, s', d') := create_folder s d name (Some st) in
  c = Created ∧
  well_formed d' ∧
  lookup d' [name] = Some (Dir st []) ∧
  listdir d' ≡ₚ name :: listdir d ∧
  (∀ y p, y ≠ name → lookup d' (y :: p) = lookup d (y :: p)) ∧
  image_files s' = image_files s ∧
  current_index s' = current_index s ∧
  undo_stack s' = undo_stack s ∧
  (∀ f, f ∈ folders s' ↔
        f ∈ (visible_subdirectories d).*1 ∨
        (f = name ∧ Py.startswith name "." = false)).
Proof.
  intros Hwf Hone Hfree. unfold create_folder, os_makedirs.
  destruct name as [|c0 name]; [done|]. rewrite Hfree.
  set (nm := String c0 name) in *. cbn [mbind option_bind].
  pose proof (makedirs_well_formed d nm st Hwf Hfree) as Hwf'.
  split; [done|]. split; [done|]. split.
  { cbn [lookup]. rewrite assoc_app. apply exists_assoc in Hfree.
    rewrite Hfree. cbn [assoc]. by rewrite String.eqb_refl. }
  split.
  { unfold listdir. rewrite map_app. cbn [map fst].
    by rewrite <- Permutation_cons_append. }
  split.
  { intros y p Hy.
    assert (Hassoc : assoc y (d ++ [(nm, Dir st [])]) = assoc y d).
    { rewrite assoc_app. destruct (assoc y d); [done|]. cbn [assoc].
      by destruct (String.eqb_spec y nm). }
    destruct p; cbn [lookup]; by rewrite Hassoc. }
  do 3 (split; [done|]).
  intros f. cbn [folders load_folders set_folders].
  rewrite !list_elem_of_fmap.
  setoid_rewrite sort_Permutation.
  rewrite !folder_with_time_visible by done.
  rewrite visible_subdirectories_app.
  setoid_rewrite elem_of_app.
  unfold visible_subdirectories at 2. cbn [omap list_omap fst snd].
  fold (create_time st).
  destruct (Py.startswith nm ".").
  - split.
    + intros ([g t] & -> & [Hin|Hin]); [left; by exists (g, t)|].
      by apply elem_of_nil in Hin.
    + intros [([g t] & -> & Hin)|[_ ?]]; [|done]. exists (g, t). auto.
  - split.
    + intros ([g t] & -> & [Hin|Hin]); [left; by exists (g, t)|].
      apply list_elem_of_singleton in Hin as [= -> ->]. by right.
    + intros [([g t] & -> & Hin)|[-> _]]; [exists (g, t); auto|].
      eexists (nm, _). split; [done|]. right. apply list_elem_of_here.
Qed.

Lemma create_folder_success_witness :
  well_formed sample_dir ∧
  one_component ".trash" = true ∧
  exists_ sample_dir [".trash"] = false ∧
  let '(c, s', d') :=
    create_folder sample_session sample_dir ".trash"
      (Some {| st_birthtime := Some 40; st_ctime := 40 |}) in
  c = Created ∧
  lookup d' [".trash"] = Some (Dir {| st_birthtime := Some 40; st_ctime := 40 |} []) ∧
  folders s' = ["cats"; "dogs"].
Proof.
  assert (Hwf : well_formed sample_dir).
  { apply (bool_decide_unpack (NoDup (listdir sample_dir))). vm_compute. exact I. }
  split; [exact Hwf|]. split; [reflexivity|]. split; [reflexivity|].
  pose proof (create_folder_success sample_session sample_dir ".trash"
                {| st_birthtime := Some 40; st_ctime := 40 |}
                Hwf eq_refl eq_refl) as H.
  destruct (create_folder _ _ _ _) as [[c s'] d'] eqn:E.
  destruct H as (H1 & _ & H3 & _).
  split; [exact H1|]. split; [exact H3|].
  vm_compute in E. injection E as _ <- _. reflexivity.
Defined.

Section SortSnoc.
Context {A K : Type} (key : A → K) (leb : K → K → bool).


End SortSnoc.



Lemma create_from_invariant s d name made c s' d' :
  is_image name = false →
  invariant (s, d) →
  create_folder s d name made = (c, s', d') →
  invariant (s', d').
Proof.
  intros Himg Hinv E.
  assert (Hdec : c = Created ∨ c ≠ Created) by (destruct c; auto).
  destruct Hdec as [->|Hc];
    [|by destruct (create_folder_not_Created _ _ _ _ _ _ _ E Hc) as [-> ->]].
  destruct (create_folder_Created _ _ _ _ _ _ _ E eq_refl)
    as (st & -> & Hne & Hfree & -> & ->).
  destruct Hinv as (Hwf & Hstep & Hc & Hrec). cbn [fst snd] in *.
  split; [by apply makedirs_well_formed|]. split; [|by split].
  unfold images_in_step in *. cbn [fst snd].
  change (image_files s
          = Py.sort id String.leb
              (List.filter is_image (listdir (d ++ [(name, Dir st [])])))).
  rewrite Hstep. cbn [image_files load_images set_image_files set_current_index].
  unfold listdir. rewrite map_app, List.filter_app. cbn [map List.filter fst].
  by rewrite Himg, app_nil_r.
Qed.

(** X10. [create_folder] with a name that is empty or one path component
    and that [load_images] would not take for an image keeps the session
    sound, whether the folder is created or not. *)
Theorem create_folder_keeps_invariant (s : session) (d : directory)
    (name : string) (made : option stat_result) :
  name = EmptyString ∨ one_component name = true →
  is_image name = false →
  invariant (s, d) →
  let '(_, s', d') := create_folder s d name made in invariant (s', d').
Proof.
  intros _ Himg Hinv.
  destruct (create_folder s d name made) as [[c s'] d'] eqn:E.
  by eapply create_from_invariant.
Qed.

Lemma create_folder_keeps_invariant_witness :
  one_component "birds" = true ∧ is_image "birds" = false ∧
  invariant (sample_session, sample_dir) ∧
  invariant ((create_folder sample_session sample_dir "birds"
                (Some {| st_birthtime := None; st_ctime := 40 |})).1.2,
             (create_folder sample_session sample_dir "birds"
                (Some {| st_birthtime := None; st_ctime := 40 |})).2).
Proof.
  split; [reflexivity|]. split; [reflexivity|]. split; [exact sample_invariant|].
  exact (create_folder_keeps_invariant sample_session sample_dir "birds"
           (Some {| st_birthtime := None; st_ctime := 40 |})
           (or_intror eq_refl) eq_refl sample_invariant).
Defined.

(** X11. [create_folder] never rescans the images, and [load_images] does
    not tell a directory from a file: after a folder with an image name
    (say [pics.png]) is created, the image list is no longer what a rescan
    would find, for the rescan lists the new folder as an image. *)
Theorem create_folder_with_image_name (s : session) (d : directory)
    (name : string) (st : stat_result) :
  well_formed d →
  images_in_step s d →
  one_component name = true →
  is_image name = true →
  exists_ d [name] = false →
  let '(c, s', d') := create_folder s d name (Some st) in
  c = Created ∧
  (name ∉ image_files s') ∧
  (name ∈ image_files (load_images s' d')) ∧
  ¬ images_in_step s' d'.
Proof.
  intros Hwf Hstep Hone Himg Hfree.
  destruct (create_folder s d name (Some st)) as [[c s'] d'] eqn:E.
  assert (c = Created) as ->.
  { unfold create_folder, os_makedirs in E. destruct name; [done|].
    rewrite Hfree in E. simpl in E. by injection E as <- _ _. }
  destruct (create_folder_Created _ _ _ _ _ _ _ E eq_refl)
    as (st' & [= <-] & Hne & _ & -> & ->).
  assert (Hnot : name ∉ image_files (load_folders s (d ++ [(name, Dir st [])]))).
  { cbn [image_files load_folders set_folders]. rewrite Hstep.
    intros [Hin _]%image_files_elem_of.
    by apply exists_assoc, assoc_None_listdir in Hfree. }
  assert (Hin : name ∈ image_files
                  (load_images (load_folders s (d ++ [(name, Dir st [])]))
                     (d ++ [(name, Dir st [])]))).
  { apply image_files_elem_of. split; [|done].
    unfold listdir. rewrite map_app. apply elem_of_app. right.
    apply list_elem_of_here. }
  split; [done|]. split; [done|]. split; [done|].
  unfold images_in_step. intros Heq. rewrite <- Heq in Hin. done.
Qed.

Lemma create_folder_with_image_name_witness :
  well_formed sample_dir ∧
  one_component "pics.png" = true ∧ is_image "pics.png" = true ∧
  let '(c, s', d') :=
    create_folder sample_session sample_dir "pics.png"
      (Some {| st_birthtime := None; st_ctime := 40 |}) in
  image_files s' = ["a.png"; "b.jpg"] ∧
  image_files (load_images s' d') = ["a.png"; "b.jpg"; "pics.png"] ∧
  ¬ images_in_step s' d'.
Proof.
  assert (Hwf : well_formed sample_dir).
  { apply (bool_decide_unpack (NoDup (listdir sample_dir))). vm_compute. exact I. }
  split; [exact Hwf|]. split; [reflexivity|]. split; [reflexivity|].
  pose proof (create_folder_with_image_name sample_session sample_dir "pics.png"
                {| st_birthtime := None; st_ctime := 40 |}
                Hwf eq_refl eq_refl eq_refl eq_refl) as H.
  destruct (create_folder _ _ _ _) as [[c s'] d'] eqn:E.
  vm_compute in E. injection E as _ <- <-.
  split; [reflexivity|]. split; [reflexivity|]. exact (proj2 (proj2 (proj2 H))).
Defined.

Lemma try_move_outcome s d p q o s' d' :
  try_move s d p q = (o, s', d') → o = FileSystemError ∨ ∃ v, o = Moved v.
Proof.
  unfold try_move. destruct (shutil_move d p q) as [d1|]; [|intros [= <- _ _]; by left].
  destruct (Py.delitem _ _) as [rest|]; [|intros [= <- _ _]; by left].
  destruct (go_to_next_or_finish _) as [v|]; intros [= <- _ _]; [right|left]; eauto.
Qed.

(** Only the folder guard ends a move as [InvalidFolderError]. *)
Lemma move_InvalidFolderError_inv s d i a s' d' :
  move_image_to_folder s d i a = (InvalidFolderError, s', d') →
  len (folders s) <= i.
Proof.
  unfold move_image_to_folder. destruct (image_files s); [done|].
  destruct (len (folders s) <=? i) eqn:E; [intros _; by zbool|].
  destruct (Py.getitem _ _); [|done].
  destruct (Py.getitem _ _); [|done].
  assert (Ht : ∀ p q, try_move s d p q ≠ (InvalidFolderError, s', d')).
  { intros p q [?|[v ?]]%try_move_outcome; done. }
  destruct (exists_ _ _); [|by intros ?%Ht].
  destruct a as [[|]|]; [by intros ?%Ht| |done].
  by destruct (go_to_next_or_finish s).
Qed.

(** ** Keys, buttons and the list box *)

Lemma str_digit (n : nat) :
  (1 <= n <= 9)%nat → str n = String (ascii_of_nat (48 + n)) EmptyString.
Proof.
  intros H. do 10 (destruct n as [|n]; [try lia; reflexivity|]). lia.
Qed.

Lemma listbox_line s (i : nat) folder :
  folders s !! i = Some folder →
  update_folder_listbox s !! i = Some (display_text i folder).
Proof.
  intros H. unfold update_folder_listbox. by rewrite list_lookup_imap, H.
Qed.

(** X12. The numeric key [n] (1 to 9) is bound to [quick_move(n)], which
    moves the current image to the folder in line [n] of the list box, the
    line that reads ["[n] folder"]: it does what [move_image_to_folder] does
    with index [n - 1], and [folders[n - 1]] is that folder. *)
Theorem numpad_key_matches_label (s : session) (d : directory) (n : nat)
    (a : option bool) (folder : string) :
  (1 <= n <= 9)%nat →
  folders s !! (n - 1)%nat = Some folder →
  bind_keys (KP n) = Some (call_quick_move (Z.of_nat n)) ∧
  update_folder_listbox s !! (n - 1)%nat
  = Some ("[" ++ String (ascii_of_nat (48 + n)) "] " ++ folder)%string ∧
  Py.getitem (folders s) (Z.of_nat n - 1) = Some folder ∧
  quick_move s d (Z.of_nat n) a
  = (let '(o, s', d') := move_image_to_folder s d (Z.of_nat n - 1) a in
     (Ran o, s', d')).
Proof.
  intros Hn Hf. pose proof (lookup_lt_Some _ _ _ Hf) as Hlt.
  split.
  { unfold bind_keys.
    replace (1 <=? n)%nat with true by (symmetry; apply Nat.leb_le; lia).
    replace (n <? 10)%nat with true by (symmetry; apply Nat.ltb_lt; lia).
    done. }
  split.
  { rewrite (listbox_line _ _ _ Hf). unfold display_text.
    replace (n - 1 <? 9)%nat with true by (symmetry; apply Nat.ltb_lt; lia).
    replace (n - 1 + 1)%nat with n by lia.
    rewrite str_digit by done. done. }
  split.
  { rewrite getitem_nonneg by (unfold len; lia).
    replace (Z.to_nat (Z.of_nat n - 1)) with (n - 1)%nat by lia. done. }
  unfold quick_move.
  replace (Z.of_nat n - 1 <? len (folders s)) with true
    by (symmetry; apply Z.ltb_lt; unfold len; lia).
  done.
Qed.

Lemma numpad_key_matches_label_witness :
  (1 <= 2 <= 9)%nat ∧ folders sample_session !! 1%nat = Some "dogs" ∧
  update_folder_listbox sample_session !! 1%nat = Some "[2] dogs" ∧
  quick_move sample_session sample_dir 2 Cancel
  = (Ran (Moved (Showing "b.jpg")),
     after_move sample_session ["a.png"] ["dogs"; "a.png"] ["b.jpg"],
     (move_image_to_folder sample_session sample_dir 1 Cancel).2).
Proof.
  assert (Hn : (1 <= 2 <= 9)%nat) by lia.
  split; [exact Hn|]. split; [reflexivity|].
  destruct (numpad_key_matches_label sample_session sample_dir 2 Cancel "dogs"
              Hn eq_refl) as (_ & Hline & _ & Hq).
  split; [exact Hline|]. exact Hq.
Defined.

(** X13. [quick_move] never reaches the folder guard: with a number above
    the number of folders it does nothing at all, and otherwise
    [move_image_to_folder] does not end as [InvalidFolderError].  For a
    number from 1 on, with the cursor on a position of the image list, it
    does not end in an [IndexError] either.  Keys outside 1 to 9 are not
    bound. *)
Theorem quick_move_in_bounds (s : session) (d : directory) (number : Z)
    (a : option bool) :
  let '(h, s', d') := quick_move s d number a in
  (len (folders s) < number → h = Ignored ∧ s' = s ∧ d' = d) ∧
  h ≠ Ran InvalidFolderError ∧
  (1 <= number → cursor_ok s → h ≠ Ran IndexError) ∧
  (∀ i, (i < 1 ∨ 9 < i)%nat → bind_keys (KP i) = None).
Proof.
  unfold quick_move. destruct (number - 1 <? len (folders s)) eqn:E; zbool.
  - destruct (move_image_to_folder s d (number - 1) a) as [[o s'] d'] eqn:Em.
    split; [lia|]. split; [|split].
    + intros [= ->]. apply move_InvalidFolderError_inv in Em. lia.
    + intros Hn Hc [= ->].
      destruct (move_cases _ _ _ _ _ _ _ Hc Em)
        as [(_ & _ & _ & Hi)|(v & _ & _ & ? & _)]; [|done].
      apply Hi; [lia|done].
    + intros i Hi. unfold bind_keys.
      destruct (1 <=? i)%nat eqn:E1; destruct (i <? 10)%nat eqn:E2; try done.
      apply Nat.leb_le in E1. apply Nat.ltb_lt in E2. lia.
  - split; [done|]. split; [done|]. split; [done|].
    intros i Hi. unfold bind_keys.
    destruct (1 <=? i)%nat eqn:E1; destruct (i <? 10)%nat eqn:E2; try done.
    apply Nat.leb_le in E1. apply Nat.ltb_lt in E2. lia.
Qed.

(** X14. [move_to_selected] with nothing selected only warns.  With a
    line of the list box selected it moves the current image to the folder
    of that line; it does not end as [InvalidFolderError], nor, with the
    cursor on a position of the image list, in an [IndexError]. *)
Theorem move_to_selected_line (s : session) (d : directory)
    (selection : list Z) (a : option bool) :
  Forall (fun k => 0 <= k < len (update_folder_listbox s)) selection →
  match selection with
  | [] => move_to_selected s d selection a = (Warned, s, d)
  | k :: _ =>
      ∃ folder o s' d',
        folders s !! Z.to_nat k = Some folder ∧
        update_folder_listbox s !! Z.to_nat k
        = Some (display_text (Z.to_nat k) folder) ∧
        move_image_to_folder s d k a = (o, s', d') ∧
        move_to_selected s d selection a = (Ran o, s', d') ∧
        o ≠ InvalidFolderError ∧
        (cursor_ok s → o ≠ IndexError)
  end.
Proof.
  intros Hsel. destruct selection as [|k rest]; [done|].
  apply Forall_cons in Hsel as [Hk _].
  unfold len, update_folder_listbox in Hk. rewrite length_imap in Hk.
  destruct (lookup_lt_is_Some_2 (folders s) (Z.to_nat k)) as [folder Hf]; [lia|].
  destruct (move_image_to_folder s d k a) as [[o s'] d'] eqn:Em.
  exists folder, o, s', d'. split; [done|]. split; [by apply listbox_line|].
  split; [done|]. split; [unfold move_to_selected; by rewrite Em|]. split.
  - intros ->. apply move_InvalidFolderError_inv in Em. unfold len in Em. lia.
  - intros Hc ->.
    destruct (move_cases _ _ _ _ _ _ _ Hc Em)
      as [(_ & _ & _ & Hi)|(v & _ & _ & ? & _)]; [|done].
    apply Hi; [lia|done].
Qed.

Lemma move_to_selected_line_witness :
  Forall (fun k => 0 <= k < len (update_folder_listbox sample_session)) [1] ∧
  ∃ folder o s' d',
    folders sample_session !! Z.to_nat 1 = Some folder ∧
    update_folder_listbox sample_session !! Z.to_nat 1
    = Some (display_text (Z.to_nat 1) folder) ∧
    move_image_to_folder sample_session sample_dir 1 Cancel = (o, s', d') ∧
    move_to_selected sample_session sample_dir [1] Cancel = (Ran o, s', d') ∧
    o ≠ InvalidFolderError ∧
    (cursor_ok sample_session → o ≠ IndexError).
Proof.
  assert (H : Forall (fun k => 0 <= k < len (update_folder_listbox sample_session)) [1]).
  { constructor; [|constructor]. vm_compute. split; [discriminate|reflexivity]. }
  split; [exact H|].
  exact (move_to_selected_line sample_session sample_dir [1] Cancel H).
Defined.

Lemma quick_move_in_bounds_witness :
  let '(h, s', d') := quick_move sample_session sample_dir 3 Cancel in
  len (folders sample_session) < 3 ∧ h = Ignored ∧
  s' = sample_session ∧ d' = sample_dir.
Proof.
  pose proof (quick_move_in_bounds sample_session sample_dir 3 Cancel) as H.
  destruct (quick_move sample_session sample_dir 3 Cancel) as [[h s'] d'].
  assert (Hlt : len (folders sample_session) < 3) by reflexivity.
  split; [exact Hlt|]. exact (proj1 H Hlt).
Defined.

(** ** The main loop *)






(** ** The directory after a move and its undo *)

Lemma replace_replace d x m1 m2 :
  replace_entry x m2 (replace_entry x m1 d) = replace_entry x m2 d.
Proof.
  induction d as [|[y n] d IH]; simpl; [done|].
  destruct (String.eqb_spec x y) as [->|Hne]; simpl.
  - by rewrite String.eqb_refl.
  - destruct (String.eqb_spec x y); [done|]. by rewrite IH.
Qed.

Lemma replace_same d x m : assoc x d = Some m → replace_entry x m d = d.
Proof.
  induction d as [|[y n] d IH]; simpl; [done|].
  destruct (String.eqb_spec x y) as [->|Hne]; [by intros [= ->]|].
  intros H. by rewrite IH.
Qed.

Lemma remove_snoc_free d x m :
  assoc x d = None → remove_entry x (d ++ [(x, m)]) = d.
Proof.
  induction d as [|[y n] d IH]; simpl; [by rewrite String.eqb_refl|].
  destruct (String.eqb_spec x y) as [->|Hne]; [done|].
  intros H. by rewrite IH.
Qed.

Lemma remove_replace d x m : remove_entry x (replace_entry x m d) = remove_entry x d.
Proof.
  induction d as [|[y n] d IH]; simpl; [done|].
  destruct (String.eqb_spec x y) as [->|Hne]; simpl.
  - by rewrite String.eqb_refl.
  - destruct (String.eqb_spec x y); [done|]. by rewrite IH.
Qed.

Lemma entries_remove d x n :
  assoc x d = Some n → d ≡ₚ (x, n) :: remove_entry x d.
Proof.
  induction d as [|[y m] d IH]; simpl; [done|].
  destruct (String.eqb_spec x y) as [->|Hne]; [by intros [= ->]|].
  intros H. rewrite (IH H) at 1. apply Permutation_swap.
Qed.

(** The two directories a move and its undo leave, for a regular file, a
    folder of the working directory and a destination that is no
    directory. *)
Lemma move_then_undo_dirs s d i a src target data st ents :
  well_formed d →
  Py.getitem (image_files s) (current_index s) = Some src →
  Py.getitem (folders s) i = Some target →
  assoc src d = Some (File data) →
  assoc target d = Some (Dir st ents) →
  isdir d [target; src] = false →
  (exists_ d [target; src] = true → a = Overwrite) →
  let d1 := replace_entry target (Dir st (link_entry src (File data) ents))
              (remove_entry src d) in
  let d2 := replace_entry target
              (Dir st (remove_entry src (link_entry src (File data) ents)))
              (remove_entry src d) ++ [(src, File data)] in
  ∃ o1 s1 o2 s2,
    move_image_to_folder s d i a = (o1, s1, d1) ∧
    undo_move s1 d1 = (o2, s2, d2).
Proof.
  intros Hwf Hsrc Htgt Hfile Hfolder Hdir Hans d1 d2.
  assert (Hne : src ≠ target) by (intros ->; congruence).
  pose proof (move_into_folder _ _ _ _ _ _ Hfile Hfolder Hdir) as Hmv.
  fold d1 in Hmv.
  destruct (try_move_ok _ _ _ _ _ _ Hmv Hsrc) as (k & Hk & Htry).
  simpl in Htry. rewrite <- (move_reaches_try _ _ _ _ _ _ Hsrc Htgt Hans) in Htry.
  eexists _, _. 
  assert (Hgone : assoc src d1 = None).
  { unfold d1. rewrite assoc_replace_other by done. by apply assoc_remove_same. }
  assert (Hfolder1 :
    assoc target d1 = Some (Dir st (link_entry src (File data) ents))).
  { unfold d1. eapply assoc_replace_same. by rewrite assoc_remove_other. }
  pose proof (move_out_of_folder _ _ _ _ _ _ Hgone Hfolder1
                (assoc_link_same _ _ _)) as Hback.
  assert (Hd2 : replace_entry target
                  (Dir st (remove_entry src (link_entry src (File data) ents))) d1
                ++ [(src, File data)] = d2).
  { unfold d2, d1. by rewrite replace_replace. }
  rewrite Hd2 in Hback.
  set (s1 := after_move s [src] [target; src] (delete k (image_files s))) in *.
  assert (Hundo : ∃ o2 s2, undo_move s1 d1 = (o2, s2, d2)).
  { unfold undo_move. cbn [undo_stack s1 after_move].
    change (undo_stack s ++ [([target; src], [src])])
      with (Py.append (undo_stack s) ([target; src], [src])).
    rewrite pop_append, Hback.
    destruct (Py.index _ _); destruct (show_current_image _); by eexists _, _. }
  destruct Hundo as (o2 & s2 & Hundo). exists o2, s2. by split.
Qed.

(** X16. A move into a folder where the name was free, undone: the
    working directory holds what it held before.  The file is back at its
    path with its content, every path under another name than the folder's
    leads where it led, every path into the folder leads where it led (so
    the folder has the entries it had and no more), the folder is still a
    directory, and the directory lists the names it listed.  Nothing is
    said of the order of the listing nor of the folder's time stamps. *)
Theorem undo_after_free_move_restores_directory (s : session) (d : directory)
    (i : Z) (a : option bool) (src target data : string)
    (v1 v2 : view) (s1 s2 : session) (d1 d2 : directory) :
  well_formed d →
  Py.getitem (image_files s) (current_index s) = Some src →
  Py.getitem (folders s) i = Some target →
  lookup d [src] = Some (File data) →
  isdir d [target] = true →
  exists_ d [target; src] = false →
  move_image_to_folder s d i a = (Moved v1, s1, d1) →
  undo_move s1 d1 = (Undone v2, s2, d2) →
  lookup d2 [src] = Some (File data) ∧
  (∀ y p, y ≠ target → lookup d2 (y :: p) = lookup d (y :: p)) ∧
  (∀ y p, lookup d2 (target :: y :: p) = lookup d (target :: y :: p)) ∧
  isdir d2 [target] = true ∧
  listdir d2 ≡ₚ listdir d.
Proof.
  intros Hwf Hsrc Htgt Hfile Hisdir Hfree Hmove Hundo.
  cbn [lookup] in Hfile. unfold isdir in Hisdir. cbn [lookup] in Hisdir.
  destruct (assoc target d) as [[?|st ents]|] eqn:Hfolder; try done.
  assert (Hnone : assoc src ents = None).
  { unfold exists_ in Hfree. cbn [lookup] in Hfree. rewrite Hfolder in Hfree.
    by destruct (assoc src ents). }
  assert (Hdir : isdir d [target; src] = false).
  { unfold isdir. cbn [lookup]. by rewrite Hfolder, Hnone. }
  destruct (move_then_undo_dirs s d i a src target data st ents
              Hwf Hsrc Htgt Hfile Hfolder Hdir)
    as (o1 & s1' & o2 & s2' & Hm & Hu); [by rewrite Hfree|].
  rewrite Hmove in Hm. injection Hm as _ <- ->.
  rewrite Hundo in Hu. injection Hu as _ _ ->.
  assert (Heq : replace_entry target
                  (Dir st (remove_entry src (link_entry src (File data) ents)))
                  (remove_entry src d) = remove_entry src d).
  { unfold link_entry. rewrite Hnone, remove_snoc_free by done.
    apply replace_same. rewrite assoc_remove_other; [done|].
    intros ->. congruence. }
  rewrite Heq.
  assert (Hassoc : ∀ y, assoc y (remove_entry src d ++ [(src, File data)])
                        = assoc y d).
  { intros y. rewrite assoc_app. destruct (String.eqb_spec y src) as [->|Hne].
    - rewrite assoc_remove_same by done. cbn [assoc].
      by rewrite String.eqb_refl.
    - rewrite assoc_remove_other by done. destruct (assoc y d); [done|].
      cbn [assoc]. by destruct (String.eqb_spec y src). }
  assert (Hlook : ∀ y p, lookup (remove_entry src d ++ [(src, File data)]) (y :: p)
                         = lookup d (y :: p)).
  { intros y p. destruct p; cbn [lookup]; by rewrite Hassoc. }
  split; [by rewrite Hlook; cbn [lookup]|].
  split; [intros y p _; apply Hlook|].
  split; [intros y p; apply Hlook|].
  split; [unfold isdir; by rewrite Hlook; cbn [lookup]; rewrite Hfolder|].
  unfold listdir. apply Permutation_map.
  rewrite <- Permutation_cons_append. symmetry. by apply entries_remove.
Qed.

Lemma undo_after_free_move_restores_directory_witness :
  ∃ s1 d1 d2,
    move_image_to_folder sample_session sample_dir 0 Cancel
    = (Moved (Showing "b.jpg"), s1, d1) ∧
    undo_move s1 d1 = (Undone (Showing "a.png"), sample_session, d2) ∧
    lookup d2 ["a.png"] = Some (File "aaa") ∧
    (∀ y p, y ≠ "cats" → lookup d2 (y :: p) = lookup sample_dir (y :: p)) ∧
    (∀ y p, lookup d2 ("cats" :: y :: p) = lookup sample_dir ("cats" :: y :: p)) ∧
    isdir d2 ["cats"] = true ∧
    listdir d2 ≡ₚ listdir sample_dir.
Proof.
  assert (Hwf : well_formed sample_dir).
  { apply (bool_decide_unpack (NoDup (listdir sample_dir))). vm_compute. exact I. }
  eexists _, _, _. split; [reflexivity|]. split; [reflexivity|].
  eapply (undo_after_free_move_restores_directory sample_session sample_dir 0
            Cancel "a.png" "cats" "aaa");
    [exact Hwf|reflexivity..].
Defined.

(** X17. A move that overwrote a file of the same name in the folder,
    undone: the moved file is back in the working directory, but the file it
    replaced is not brought back; the folder no longer has an entry of that
    name. *)
Theorem undo_after_overwrite_loses_old_file (s : session) (d : directory)
    (i : Z) (src target data old : string) (st : stat_result) (ents : directory)
    (v1 v2 : view) (s1 s2 : session) (d1 d2 : directory) :
  well_formed d →
  Py.getitem (image_files s) (current_index s) = Some src →
  Py.getitem (folders s) i = Some target →
  lookup d [src] = Some (File data) →
  lookup d [target] = Some (Dir st ents) →
  well_formed ents →
  lookup d [target; src] = Some (File old) →
  move_image_to_folder s d i Overwrite = (Moved v1, s1, d1) →
  undo_move s1 d1 = (Undone v2, s2, d2) →
  lookup d1 [target; src] = Some (File data) ∧
  lookup d2 [src] = Some (File data) ∧
  lookup d2 [target; src] = None.
Proof.
  intros Hwf Hsrc Htgt Hfile Hfolder Hwfe Hold Hmove Hundo.
  cbn [lookup] in Hfile, Hfolder, Hold. rewrite Hfolder in Hold.
  assert (Hne : src ≠ target) by (intros ->; congruence).
  assert (Hdir : isdir d [target; src] = false).
  { unfold isdir. cbn [lookup]. by rewrite Hfolder, Hold. }
  destruct (move_then_undo_dirs s d i Overwrite src target data st ents
              Hwf Hsrc Htgt Hfile Hfolder Hdir)
    as (o1 & s1' & o2 & s2' & Hm & Hu); [done|].
  rewrite Hmove in Hm. injection Hm as _ <- ->.
  rewrite Hundo in Hu. injection Hu as _ _ ->.
  assert (Hrest : assoc target (remove_entry src d) = Some (Dir st ents))
    by (by rewrite assoc_remove_other).
  assert (Hgone : assoc src (remove_entry src d) = None)
    by (by apply assoc_remove_same).
  split; [|split].
  - cbn [lookup]. rewrite (assoc_replace_same _ _ _ _ Hrest).
    apply assoc_link_same.
  - cbn [lookup]. rewrite assoc_app, assoc_replace_other, Hgone by done.
    simpl. by rewrite String.eqb_refl.
  - cbn [lookup]. rewrite assoc_app, (assoc_replace_same _ _ _ _ Hrest).
    unfold link_entry. rewrite Hold, remove_replace.
    by apply assoc_remove_same.
Qed.

Lemma undo_after_overwrite_loses_old_file_witness :
  lookup collision_dir ["cats"; "a.png"] = Some (File "old") ∧
  ∃ s1 d1 d2,
    move_image_to_folder (scan collision_dir) collision_dir 0 Overwrite
    = (Moved (Showing "b.jpg"), s1, d1) ∧
    undo_move s1 d1 = (Undone (Showing "a.png"), scan collision_dir, d2) ∧
    lookup d1 ["cats"; "a.png"] = Some (File "new") ∧
    lookup d2 ["a.png"] = Some (File "new") ∧
    lookup d2 ["cats"; "a.png"] = None.
Proof.
  assert (Hwf : well_formed collision_dir).
  { apply (bool_decide_unpack (NoDup (listdir collision_dir))). vm_compute. exact I. }
  assert (Hwfe : well_formed [("a.png", File "old")]).
  { apply (bool_decide_unpack (NoDup (listdir [("a.png", File "old")]))).
    vm_compute. exact I. }
  split; [reflexivity|].
  eexists _, _, _. split; [reflexivity|]. split; [reflexivity|].
  eapply (undo_after_overwrite_loses_old_file (scan collision_dir) collision_dir 0
            "a.png" "cats" "new" "old" {| st_birthtime := None; st_ctime := 10 |}
            [("a.png", File "old")]);
    [exact Hwf|reflexivity|reflexivity|reflexivity|reflexivity|exact Hwfe
    |reflexivity..].
Defined.

(** ** Navigation, the last image, the prompt *)

(** X18. Away from the ends of the list [next_image] and [prev_image]
    undo each other: the session is back where it was. *)
Theorem next_prev_round_trip (s : session) :
  0 <= current_index s < len (image_files s) →
  (current_index s < len (image_files s) - 1 →
   (prev_image (next_image s).1).1 = s) ∧
  (0 < current_index s → (next_image (prev_image s).1).1 = s).
Proof.
  intros H. unfold next_image, prev_image, refresh.
  destruct (image_files s) as [|f0 fs] eqn:E; [unfold len in H; simpl in H; lia|].
  split; intros H1.
  - replace (current_index s <? len (f0 :: fs) - 1) with true
      by (symmetry; apply Z.ltb_lt; lia).
    cbn [fst image_files set_current_index current_index]. rewrite E.
    replace (0 <? current_index s + 1) with true by (symmetry; apply Z.ltb_lt; lia).
    cbn [fst]. unfold set_current_index.
    cbn [image_files current_index folders undo_stack].
    destruct s. cbn in *. f_equal. lia.
  - replace (0 <? current_index s) with true by (symmetry; apply Z.ltb_lt; lia).
    cbn [fst image_files set_current_index current_index]. rewrite E.
    replace (current_index s - 1 <? len (f0 :: fs) - 1) with true
      by (symmetry; apply Z.ltb_lt; lia).
    cbn [fst]. unfold set_current_index.
    cbn [image_files current_index folders undo_stack].
    destruct s. cbn in *. f_equal. lia.
Qed.

Lemma next_prev_round_trip_witness :
  0 <= current_index sample_session < len (image_files sample_session) ∧
  (prev_image (next_image sample_session).1).1 = sample_session.
Proof.
  assert (H : 0 <= current_index sample_session < len (image_files sample_session))
    by (vm_compute; split; [discriminate|reflexivity]).
  split; [exact H|].
  apply (proj1 (next_prev_round_trip sample_session H)). reflexivity.
Defined.

(** X19. Moving the only image left ends the sorting: the label says that
    all images are classified, the list is empty and the cursor is [-1];
    from then on [show_current_image] reports that there are no images,
    [next_image] and [prev_image] do nothing, and every further move returns
    at the first guard. *)
Theorem move_of_last_image (s : session) (d : directory) (i : Z)
    (a : option bool) (f : string) (v : view) (s' : session) (d' : directory) :
  image_files s = [f] →
  move_image_to_folder s d i a = (Moved v, s', d') →
  v = AllClassified ∧
  image_files s' = [] ∧
  current_index s' = -1 ∧
  show_current_image s' = Some NoImagesFound ∧
  next_image s' = (s', Kept) ∧
  prev_image s' = (s', Kept) ∧
  ∀ j b, move_image_to_folder s' d' j b = (NoImagesError, s', d').
Proof.
  intros Hone (src & target & Hsrc & Htgt & Htry)%move_Moved_inv.
  destruct (shutil_move d [src] [target; src]) as [d1|] eqn:Hmv;
    [|unfold try_move in Htry; by rewrite Hmv in Htry].
  destruct (try_move_ok _ _ _ _ _ _ Hmv Hsrc) as (k & Hk & Heq).
  simpl in Heq. rewrite Heq in Htry. clear Heq.
  pose proof (getitem_bounds _ _ _ Hsrc) as Hb.
  apply norm_index_Some in Hk as (Hlt & _).
  rewrite Hone in *. simpl in Hlt. assert (k = 0%nat) as -> by lia.
  cbn [delete list_delete] in Htry.
  unfold go_to_next_or_finish in Htry. cbn [image_files after_move] in Htry.
  injection Htry as <- <- <-.
  split; [done|]. split; [done|]. split.
  { cbn [current_index after_move].
    assert (current_index s = 0 ∨ current_index s = -1) as [-> | ->]
      by (unfold len in Hb; simpl in Hb; lia); reflexivity. }
  split; [done|]. split; [done|]. split; [done|]. done.
Qed.

Lemma move_of_last_image_witness :
  image_files (scan single_dir) = ["only.gif"] ∧
  ∃ s' d',
    move_image_to_folder (scan single_dir) single_dir 0 Cancel
    = (Moved AllClassified, s', d') ∧
    current_index s' = -1 ∧
    ∀ j b, move_image_to_folder s' d' j b = (NoImagesError, s', d').
Proof.
  split; [reflexivity|]. eexists _, _. split; [reflexivity|].
  destruct (move_of_last_image (scan single_dir) single_dir 0 Cancel "only.gif"
              AllClassified _ _ eq_refl eq_refl) as (_ & _ & Hc & _ & _ & _ & Hm).
  split; [exact Hc|exact Hm].
Defined.

(** X20. The prompt counts only when the destination exists: with a free
    destination every answer gives the same result, and on a collision
    "cancel" leaves the session and the directory as they were, while
    "overwrite" runs the [try] block. *)
Theorem prompt_matters_only_on_collision (s : session) (d : directory) (i : Z)
    (src target : string) :
  Py.getitem (image_files s) (current_index s) = Some src →
  Py.getitem (folders s) i = Some target →
  (exists_ d [target; src] = false →
   ∀ a1 a2, move_image_to_folder s d i a1 = move_image_to_folder s d i a2) ∧
  (exists_ d [target; src] = true →
   move_image_to_folder s d i Cancel = (Cancelled, s, d) ∧
   move_image_to_folder s d i Overwrite = try_move s d [src] [target; src]).
Proof.
  intros Hsrc Htgt. split.
  - intros Hfree a1 a2.
    rewrite !(move_reaches_try _ _ _ _ _ _ Hsrc Htgt); by rewrite ?Hfree.
  - intros Hex. split; [|by apply move_reaches_try].
    unfold move_image_to_folder.
    destruct (image_files s) as [|f0 fs] eqn:E; [by rewrite getitem_nil in Hsrc|].
    pose proof (getitem_bounds _ _ _ Htgt) as Hb.
    replace (len (folders s) <=? i) with false by (symmetry; apply Z.leb_gt; lia).
    by rewrite Hsrc, Htgt, Hex.
Qed.

Lemma prompt_matters_only_on_collision_witness :
  exists_ collision_dir ["cats"; "a.png"] = true ∧
  move_image_to_folder (scan collision_dir) collision_dir 0 Cancel
  = (Cancelled, scan collision_dir, collision_dir) ∧
  exists_ sample_dir ["cats"; "a.png"] = false ∧
  move_image_to_folder sample_session sample_dir 0 Cancel
  = move_image_to_folder sample_session sample_dir 0 Skip.
Proof.
  split; [reflexivity|]. split.
  - apply (proj2 (prompt_matters_only_on_collision (scan collision_dir)
                    collision_dir 0 "a.png" "cats" eq_refl eq_refl) eq_refl).
  - split; [reflexivity|].
    apply (proj1 (prompt_matters_only_on_collision sample_session sample_dir 0
                    "a.png" "cats" eq_refl eq_refl) eq_refl).
Defined.

(** ** The order of the folders *)

(** X21. Folders with the same time stamp stay in the order in which
    [os.listdir] reports them: for every time stamp, the folders carrying it
    appear in the sorted list as they do in the scan. *)
Theorem load_folders_ties_in_listing_order (s : session) (d : directory) (t : Z) :
  folders (load_folders s d) = (Py.sort snd Z.leb (folder_with_time d)).*1 ∧
  List.filter (fun e => e.2 =? t) (Py.sort snd Z.leb (folder_with_time d))
  = List.filter (fun e => e.2 =? t) (folder_with_time d).
Proof.
  split; [done|].
  pose proof (sort_stable (A := string * Z) snd Z.leb Z_leb_trans
                (EmptyString, t) (folder_with_time d)) as H.
  assert (Hext : ∀ e : string * Z,
            Py.ties snd Z.leb (EmptyString, t) e = (e.2 =? t)).
  { intros [f u]. unfold Py.ties. simpl.
    destruct (Z.leb_spec t u), (Z.leb_spec u t), (Z.eqb_spec u t); simpl; lia. }
  by rewrite !(List.filter_ext _ _ Hext) in H.
Qed.

Lemma omap_Permutation {A B} (f : A → option B) (l1 l2 : list A) :
  l1 ≡ₚ l2 → omap f l1 ≡ₚ omap f l2.
Proof.
  induction 1 as [|x l1 l2 H IH|x y l|l1 l2 l3 H1 IH1 H2 IH2]; simpl.
  - done.
  - destruct (f x); by rewrite IH.
  - destruct (f x), (f y); try done. apply Permutation_swap.
  - by rewrite IH1.
Qed.

Lemma NoDup_fmap_eq {A B} (f : A → B) (l : list A) (x y : A) :
  NoDup (f <$> l) → x ∈ l → y ∈ l → f x = f y → x = y.
Proof.
  induction l as [|z l IH]; simpl; [by intros _ ?%elem_of_nil|].
  intros [Hz Hnd]%NoDup_cons [->|Hx]%elem_of_cons [->|Hy]%elem_of_cons Heq.
  - done.
  - destruct Hz. rewrite Heq. apply list_elem_of_fmap. by exists y.
  - destruct Hz. rewrite <- Heq. apply list_elem_of_fmap. by exists x.
  - by apply IH.
Qed.

(** X22. With time stamps that differ from folder to folder, the folder
    list does not depend on the order in which [os.listdir] reports the
    entries: two listings of the same entries give the same folder list. *)
Theorem load_folders_any_listing_order (s1 s2 : session) (d1 d2 : directory) :
  well_formed d1 →
  d1 ≡ₚ d2 →
  NoDup (visible_subdirectories d1).*2 →
  folders (load_folders s1 d1) = folders (load_folders s2 d2).
Proof.
  intros Hwf Hperm Htimes.
  assert (Hwf2 : well_formed d2).
  { unfold well_formed, listdir in *. by rewrite <- Hperm. }
  cbn [folders load_folders set_folders].
  rewrite !folder_with_time_visible by done. f_equal.
  pose proof (omap_Permutation _ _ _ Hperm
              : visible_subdirectories d1 ≡ₚ visible_subdirectories d2) as Hvis.
  apply (StronglySorted_unique_strong (Py.key_le snd Z.leb)).
  - intros x y Hx Hy Hxy Hyx.
    rewrite sort_Permutation in Hx, Hy. rewrite <- Hvis in Hy.
    apply (NoDup_fmap_eq snd _ x y Htimes Hx Hy).
    unfold Py.key_le in *. apply Z.leb_le in Hxy, Hyx. lia.
  - apply sort_StronglySorted; [apply Z_leb_total|apply Z_leb_trans].
  - apply sort_StronglySorted; [apply Z_leb_total|apply Z_leb_trans].
  - by rewrite !sort_Permutation.
Qed.

Lemma load_folders_any_listing_order_witness :
  well_formed sample_dir ∧ sample_dir ≡ₚ rev sample_dir ∧
  NoDup (visible_subdirectories sample_dir).*2 ∧
  folders (load_folders empty_session (rev sample_dir)) = ["cats"; "dogs"] ∧
  folders (load_folders empty_session sample_dir)
  = folders (load_folders empty_session (rev sample_dir)).
Proof.
  assert (Hwf : well_formed sample_dir).
  { apply (bool_decide_unpack (NoDup (listdir sample_dir))). vm_compute. exact I. }
  assert (Hnd : NoDup (visible_subdirectories sample_dir).*2).
  { apply (bool_decide_unpack (NoDup (visible_subdirectories sample_dir).*2)).
    vm_compute. exact I. }
  split; [exact Hwf|]. split; [apply Permutation_rev|]. split; [exact Hnd|].
  split; [reflexivity|].
  exact (load_folders_any_listing_order empty_session empty_session _ _
           Hwf (Permutation_rev _) Hnd).
Defined.

(** ** What a move and an undo leave alone *)

Lemma lookup_head d1 d2 x p :
  assoc x d1 = assoc x d2 → lookup d1 (x :: p) = lookup d2 (x :: p).
Proof. intros H. destruct p; cbn [lookup]; by rewrite H. Qed.

Lemma assoc_link_other d x y m : x ≠ y → assoc y (link_entry x m d) = assoc y d.
Proof.
  intros Hne. unfold link_entry. destruct (assoc x d).
  - by apply assoc_replace_other.
  - rewrite assoc_app. destruct (assoc y d); [done|]. simpl.
    by destruct (String.eqb_spec y x) as [->|_].
Qed.

Lemma attach_assoc_other d p m d1 x y :
  attach d (x :: p) m = Some d1 → x ≠ y → assoc y d1 = assoc y d.
Proof.
  intros H Hne. destruct p as [|b p].
  - cbn [attach] in H. injection H as <-. by apply assoc_link_other.
  - rewrite attach_deep in H. destruct (assoc x d) as [[?|st e]|]; try done.
    destruct (attach e (b :: p) m); [|done]. injection H as <-.
    by apply assoc_replace_other.
Qed.

Lemma detach_assoc_other d p m d1 x y :
  detach d (x :: p) = Some (m, d1) → x ≠ y → assoc y d1 = assoc y d.
Proof.
  intros H Hne. destruct p as [|b p].
  - cbn [detach] in H. destruct (assoc x d); [|done]. injection H as _ <-.
    by apply assoc_remove_other.
  - rewrite detach_deep in H. destruct (assoc x d) as [[?|st e]|]; try done.
    destruct (detach e (b :: p)) as [[? ?]|]; [|done]. injection H as _ <-.
    by apply assoc_replace_other.
Qed.

(** A move between two paths changes nothing under any other name of the
    working directory. *)
Lemma shutil_move_assoc_other d a p b q d' y :
  shutil_move d (a :: p) (b :: q) = Some d' → y ≠ a → y ≠ b →
  assoc y d' = assoc y d.
Proof.
  intros (real_dst & Hre & Hdst)%shutil_move_Some Ha Hb.
  apply os_rename_Some in Hre as [(_ & -> & _)|(m & d1 & Hde & Hat)]; [done|].
  assert (∃ q', real_dst = b :: q') as [q' ->].
  { destruct Hdst as [->|[-> _]]; by eexists. }
  rewrite (attach_assoc_other _ _ _ _ _ _ Hat) by done.
  by eapply detach_assoc_other.
Qed.

(** X23. Neither a move nor an undo touches anything but the two names
    involved: after a move that went through, every path that starts with a
    name other than the image and the folder leads where it led before; and
    after an undo of the record [(folder/f, f)], so does every path that
    starts with a name other than [f] and [folder]. *)
Theorem move_and_undo_leave_other_names (s : session) (d : directory) :
  (∀ i a v s' d',
     move_image_to_folder s d i a = (Moved v, s', d') →
     ∃ src target,
       Py.getitem (image_files s) (current_index s) = Some src ∧
       Py.getitem (folders s) i = Some target ∧
       ∀ y p, y ≠ src → y ≠ target → lookup d' (y :: p) = lookup d (y :: p)) ∧
  (∀ rest folder f o s' d',
     undo_stack s = rest ++ [([folder; f], [f])] →
     undo_move s d = (o, s', d') →
     ∀ y p, y ≠ f → y ≠ folder → lookup d' (y :: p) = lookup d (y :: p)).
Proof.
  split.
  - intros i a v s' d' (src & target & Hsrc & Htgt & Htry)%move_Moved_inv.
    exists src, target. split; [done|]. split; [done|].
    intros y p Hy1 Hy2. apply lookup_head.
    destruct (shutil_move d [src] [target; src]) as [d1|] eqn:Hmv;
      [|unfold try_move in Htry; by rewrite Hmv in Htry].
    destruct (try_move_ok _ _ _ _ _ _ Hmv Hsrc) as (k & Hk & Heq).
    simpl in Heq. rewrite Heq in Htry. injection Htry as _ _ <-.
    by eapply shutil_move_assoc_other.
  - intros rest folder f o s' d' Hst Hundo y p Hy1 Hy2. apply lookup_head.
    unfold undo_move in Hundo. rewrite Hst in Hundo.
    change (rest ++ [([folder; f], [f])])
      with (Py.append rest ([folder; f], [f])) in Hundo.
    rewrite pop_append in Hundo.
    destruct (shutil_move d [folder; f] [f]) as [d1|] eqn:Hmv;
      [|by injection Hundo as _ _ <-].
    assert (d' = d1) as ->.
    { destruct (Py.index _ _); destruct (show_current_image _);
        by injection Hundo as _ _ <-. }
    by eapply shutil_move_assoc_other.
Qed.

Lemma move_and_undo_leave_other_names_witness :
  ∃ s' d',
    move_image_to_folder sample_session sample_dir 1 Cancel
    = (Moved (Showing "b.jpg"), s', d') ∧
    lookup d' ["b.jpg"] = lookup sample_dir ["b.jpg"] ∧
    lookup d' ["cats"] = lookup sample_dir ["cats"].
Proof.
  eexists _, _. split; [reflexivity|].
  destruct (proj1 (move_and_undo_leave_other_names sample_session sample_dir)
              1 Cancel _ _ _ eq_refl)
    as (src & target & Hsrc & Htgt & H).
  injection Hsrc as <-. injection Htgt as <-.
  split; apply H; discriminate.
Defined.
